(** * Farm management portal: accounts, one-time codes and livestock records

    A shallow embedding of the account state machine, the one-time-code
    checks, the animal services and the request handlers of the portal,
    followed by the properties established about them.

    Conventions.
    - A table is the list of its rows in insertion order; [query ... .first()]
      is [find].
    - An ORM object handed to a service is the row value; a service returns
      the row as it stands after [db.session.commit()], or the row it was
      given when the commit raised and the session was rolled back.
    - [datetime] values are integers counting microseconds, [date] values are
      integers counting days.
    - The bookkeeping columns [created_at] and [updated_at] are not part of
      the rows. *)

From Stdlib Require Import ZArith List String Ascii Bool Lia.
Import ListNotations.

Open Scope Z_scope.
Open Scope string_scope.

(* ------------------------------------------------------------------ *)
(** ** Python strings *)

Module PyStr.

Definition ascii_lower (c : ascii) : ascii :=
  let n := nat_of_ascii c in
  if ((65 <=? n) && (n <=? 90))%nat then ascii_of_nat (n + 32) else c.

(** [str.lower()] on ASCII text. *)
Fixpoint lower (s : string) : string :=
  match s with
  | EmptyString => EmptyString
  | String c r => String (ascii_lower c) (lower r)
  end.

(** [str.isspace()] on one ASCII character. *)
Definition is_space (c : ascii) : bool :=
  let n := nat_of_ascii c in
  (((9 <=? n) && (n <=? 13)) || ((28 <=? n) && (n <=? 32)))%nat.

Fixpoint lstrip (s : string) : string :=
  match s with
  | EmptyString => EmptyString
  | String c r => if is_space c then lstrip r else s
  end.

Fixpoint rev_onto (s acc : string) : string :=
  match s with
  | EmptyString => acc
  | String c r => rev_onto r (String c acc)
  end.

Definition rev (s : string) : string := rev_onto s EmptyString.

Definition rstrip (s : string) : string := rev (lstrip (rev s)).

(** [str.strip()]. *)
Definition strip (s : string) : string := rstrip (lstrip s).

(** Truth value of a string: only the empty string is false. *)
Definition truthy (s : string) : bool := negb (s =? "").

(** [x in xs] for a list of strings. *)
Definition mem (x : string) (xs : list string) : bool :=
  existsb (String.eqb x) xs.

(** [sep.join(xs)]. *)
Fixpoint join (sep : string) (xs : list string) : string :=
  match xs with
  | [] => ""
  | [x] => x
  | x :: rest => x ++ sep ++ join sep rest
  end.

End PyStr.

(* ------------------------------------------------------------------ *)
(** ** Request payloads

    [request.get_json()] gives a dictionary; the handlers are modelled on
    dictionaries whose values are JSON strings or [null]. *)

Inductive JValue : Type :=
| JNull
| JStr (s : string).

Definition Payload : Type := list (string * JValue).

Module Json.

Fixpoint get (d : Payload) (k : string) : option JValue :=
  match d with
  | [] => None
  | (k', v) :: rest => if k' =? k then Some v else get rest k
  end.

Definition truthy (v : JValue) : bool :=
  match v with
  | JNull => false
  | JStr s => PyStr.truthy s
  end.

(** [str(v)]. *)
Definition str (v : JValue) : string :=
  match v with
  | JNull => "None"
  | JStr s => s
  end.

(** [d.get(k)] when the result is used as a condition and then as a
    string: [Some s] exactly when the key holds a non-empty string. *)
Definition get_truthy (d : Payload) (k : string) : option string :=
  match get d k with
  | Some (JStr s) => if PyStr.truthy s then Some s else None
  | _ => None
  end.

(** [data[k]] for a key that [validate_required_fields] accepted: the
    value is a non-empty string and [str] returns it unchanged. *)
Definition item (d : Payload) (k : string) : string :=
  match get d k with
  | Some v => str v
  | None => ""
  end.

End Json.

(* ------------------------------------------------------------------ *)
(** ** Enumerations (app/models/user.py, app/models/animal.py) *)

Inductive UserRole : Type := FARMER | VETERINARIAN | ADMIN.

Inductive UserStatus : Type := ACTIVE | INACTIVE | PENDING | SUSPENDED.

Inductive AnimalSpecies : Type :=
  CATTLE | BUFFALO | GOAT | SHEEP | POULTRY | SWINE | OTHER.

Inductive Gender : Type := MALE | FEMALE.

Inductive HealthStatus : Type :=
  HEALTHY | SICK | UNDER_TREATMENT | RECOVERING | QUARANTINE | DECEASED.

Inductive ProductionStatus : Type :=
  P_ACTIVE | DRY | PREGNANT | LACTATING | BREEDING | RETIRED.

Module Enum.

Definition role_eqb (a b : UserRole) : bool :=
  match a, b with
  | FARMER, FARMER | VETERINARIAN, VETERINARIAN | ADMIN, ADMIN => true
  | _, _ => false
  end.

Definition status_eqb (a b : UserStatus) : bool :=
  match a, b with
  | ACTIVE, ACTIVE | INACTIVE, INACTIVE
  | PENDING, PENDING | SUSPENDED, SUSPENDED => true
  | _, _ => false
  end.

(** [status.value]. *)
Definition status_value (s : UserStatus) : string :=
  match s with
  | ACTIVE => "active"
  | INACTIVE => "inactive"
  | PENDING => "pending"
  | SUSPENDED => "suspended"
  end.

(** [UserStatus(v)]; [None] stands for [ValueError]. *)
Definition status_of_value (v : string) : option UserStatus :=
  if v =? "active" then Some ACTIVE
  else if v =? "inactive" then Some INACTIVE
  else if v =? "pending" then Some PENDING
  else if v =? "suspended" then Some SUSPENDED
  else None.

(** [AnimalSpecies(v)]. *)
Definition species_of_value (v : string) : option AnimalSpecies :=
  if v =? "cattle" then Some CATTLE
  else if v =? "buffalo" then Some BUFFALO
  else if v =? "goat" then Some GOAT
  else if v =? "sheep" then Some SHEEP
  else if v =? "poultry" then Some POULTRY
  else if v =? "swine" then Some SWINE
  else if v =? "other" then Some OTHER
  else None.

(** [Gender(v)]. *)
Definition gender_of_value (v : string) : option Gender :=
  if v =? "male" then Some MALE
  else if v =? "female" then Some FEMALE
  else None.

(** [HealthStatus(v)]. *)
Definition health_of_value (v : string) : option HealthStatus :=
  if v =? "healthy" then Some HEALTHY
  else if v =? "sick" then Some SICK
  else if v =? "under_treatment" then Some UNDER_TREATMENT
  else if v =? "recovering" then Some RECOVERING
  else if v =? "quarantine" then Some QUARANTINE
  else if v =? "deceased" then Some DECEASED
  else None.

(** [ProductionStatus(v)]. *)
Definition production_of_value (v : string) : option ProductionStatus :=
  if v =? "active" then Some P_ACTIVE
  else if v =? "dry" then Some DRY
  else if v =? "pregnant" then Some PREGNANT
  else if v =? "lactating" then Some LACTATING
  else if v =? "breeding" then Some BREEDING
  else if v =? "retired" then Some RETIRED
  else None.

End Enum.

(* ------------------------------------------------------------------ *)
(** ** Time, commits and the libraries the code calls *)

Definition datetime : Type := Z.
Definition date : Type := Z.

(** [timedelta(minutes=m)] in microseconds. *)
Definition timedelta_minutes (m : Z) : Z := m * 60 * 1000000.

(** What [db.session.commit()] does: it returns, or it raises an exception
    whose text is [msg]. *)
Inductive CommitOutcome : Type :=
| Committed
| CommitRaises (msg : string).

(** Library functions the portal calls and does not define. *)
Record Library : Type := {
  (** werkzeug's [check_password_hash(hash, password)]. *)
  check_password_hash : string -> string -> bool;
  (** [datetime.strptime(s, '%Y-%m-%d').date()]; [None] is [ValueError]. *)
  strptime_ymd : string -> option date
}.

(* ------------------------------------------------------------------ *)
(** ** Users (app/models/user.py, app/models/base.py) *)

Record User : Type := mkUser {
  u_id : string;
  u_name : string;
  u_email : string;
  u_phone : string;
  u_password_hash : string;
  u_user_type : UserRole;
  u_status : UserStatus;
  u_email_verified : bool;
  u_phone_verified : bool;
  u_otp_code : option string;
  u_otp_created_at : option datetime;
  u_is_active : bool;
  u_deleted_at : option datetime
}.

Module UserModel.

Definition with_status (s : UserStatus) (u : User) : User :=
  mkUser (u_id u) (u_name u) (u_email u) (u_phone u) (u_password_hash u)
    (u_user_type u) s (u_email_verified u) (u_phone_verified u)
    (u_otp_code u) (u_otp_created_at u) (u_is_active u) (u_deleted_at u).

Definition with_email_verified (b : bool) (u : User) : User :=
  mkUser (u_id u) (u_name u) (u_email u) (u_phone u) (u_password_hash u)
    (u_user_type u) (u_status u) b (u_phone_verified u)
    (u_otp_code u) (u_otp_created_at u) (u_is_active u) (u_deleted_at u).

Definition with_phone_verified (b : bool) (u : User) : User :=
  mkUser (u_id u) (u_name u) (u_email u) (u_phone u) (u_password_hash u)
    (u_user_type u) (u_status u) (u_email_verified u) b
    (u_otp_code u) (u_otp_created_at u) (u_is_active u) (u_deleted_at u).

Definition with_otp (code : option string) (at_ : option datetime)
    (u : User) : User :=
  mkUser (u_id u) (u_name u) (u_email u) (u_phone u) (u_password_hash u)
    (u_user_type u) (u_status u) (u_email_verified u) (u_phone_verified u)
    code at_ (u_is_active u) (u_deleted_at u).

Definition with_is_active (b : bool) (u : User) : User :=
  mkUser (u_id u) (u_name u) (u_email u) (u_phone u) (u_password_hash u)
    (u_user_type u) (u_status u) (u_email_verified u) (u_phone_verified u)
    (u_otp_code u) (u_otp_created_at u) b (u_deleted_at u).

(** [User.check_password]. *)
Definition check_password (L : Library) (u : User) (password : string)
    : bool :=
  check_password_hash L (u_password_hash u) password.

(** [User.is_verified]. *)
Definition is_verified (u : User) : bool :=
  u_email_verified u && u_phone_verified u.

(** [User.can_login]. *)
Definition can_login (u : User) : bool :=
  Enum.status_eqb (u_status u) ACTIVE && is_verified u.

End UserModel.

(* ------------------------------------------------------------------ *)
(** ** Helpers (app/utils/helpers.py, app/utils/validators.py) *)

Module Helpers.

(** [is_otp_valid(created_at, validity_minutes)], at time [now]. *)
Definition is_otp_valid (created_at : option datetime)
    (validity_minutes : Z) (now : datetime) : bool :=
  match created_at with
  | None => false
  | Some t =>
      let expiry_time := t + timedelta_minutes validity_minutes in
      (now <? expiry_time)%Z
  end.

(** [validate_required_fields(data, required_fields)]. *)
Definition field_missing (d : Payload) (field : string) : bool :=
  match Json.get d field with
  | None => true
  | Some v =>
      negb (Json.truthy v) || (PyStr.strip (Json.str v) =? "")
  end.

Definition validate_required_fields (d : Payload)
    (required_fields : list string) : bool * list string :=
  let missing_fields := filter (field_missing d) required_fields in
  (Nat.eqb (List.length missing_fields) 0, missing_fields).

End Helpers.

(* ------------------------------------------------------------------ *)
(** ** Authentication utilities (app/auth/utils.py) *)

Module AuthUtils.

Import UserModel.

(** [User.query.filter_by(email=e, is_active=True).first()]. *)
Definition find_active_by_email (users : list User) (e : string)
    : option User :=
  find (fun u => (u_email u =? e) && u_is_active u) users.

(** [authenticate_user(email, password)]. *)
Definition authenticate_user (L : Library) (users : list User)
    (email password : string) : option User * option string :=
  if negb (PyStr.truthy email) || negb (PyStr.truthy password) then
    (None, Some "Email and password are required")
  else
    match find_active_by_email users (PyStr.lower email) with
    | None => (None, Some "Invalid email or password")
    | Some user =>
        if negb (check_password L user password) then
          (None, Some "Invalid email or password")
        else if negb (can_login user) then
          if Enum.status_value (u_status user) =? "pending" then
            (None, Some "Account is pending verification")
          else if Enum.status_value (u_status user) =? "inactive" then
            (None, Some "Account is inactive")
          else if Enum.status_value (u_status user) =? "suspended" then
            (None, Some "Account is suspended")
          else
            (None, Some "Account verification required")
        else
          (Some user, None)
    end.

(** [generate_and_store_otp(user, purpose)]: [code] is the value drawn by
    [generate_otp(6)]; [inr msg] stands for the commit exception, which
    the function raises again after the rollback. *)
Definition generate_and_store_otp (user : User) (purpose : string)
    (code : string) (now : datetime) (c : CommitOutcome)
    : (string + string) * User :=
  let user' := with_otp (Some code) (Some now) user in
  match c with
  | Committed => (inl code, user')
  | CommitRaises msg => (inr msg, user)
  end.

(** [not user.otp_code or not user.otp_created_at]. *)
Definition otp_absent (user : User) : bool :=
  match u_otp_code user, u_otp_created_at user with
  | Some code, Some _ => negb (PyStr.truthy code)
  | _, _ => true
  end.

(** [verify_otp(user, provided_otp, validity_minutes)], at time [now]. *)
Definition verify_otp (user : User) (provided_otp : string)
    (validity_minutes : Z) (now : datetime) : bool * string :=
  if otp_absent user then
    (false, "No OTP found for this user")
  else if negb (match u_otp_code user with
                | Some code => code =? provided_otp
                | None => false
                end) then
    (false, "Invalid OTP")
  else if negb (Helpers.is_otp_valid (u_otp_created_at user)
                  validity_minutes now) then
    (false, "OTP has expired")
  else
    (true, "OTP verified successfully").

(** The default of [validity_minutes], used by the signup verification
    endpoint, and the value the password-reset endpoint passes. *)
Definition DEFAULT_VALIDITY_MINUTES : Z := 10.
Definition RESET_VALIDITY_MINUTES : Z := 30.

(** [verify_user_account(user, verification_type)]. *)
Definition verify_user_account (user : User) (verification_type : string)
    (c : CommitOutcome) : bool * User :=
  let u1 :=
    if PyStr.mem verification_type ["email"; "both"]
    then with_email_verified true user else user in
  let u2 :=
    if PyStr.mem verification_type ["phone"; "both"]
    then with_phone_verified true u1 else u1 in
  let u3 :=
    if u_email_verified u2 && u_phone_verified u2
    then with_status ACTIVE u2 else u2 in
  match c with
  | Committed => (true, u3)
  | CommitRaises _ => (false, user)
  end.

End AuthUtils.

(* ------------------------------------------------------------------ *)
(** ** User service (app/services/user_service.py) *)

Module UserService.

Import UserModel.

(** [UserService.deactivate_user(user, reason)]. *)
Definition deactivate_user (user : User) (reason : option string)
    (c : CommitOutcome) : (bool * string) * User :=
  let u1 := with_status INACTIVE user in
  let u2 := with_is_active false u1 in
  match c with
  | Committed => ((true, "User account deactivated"), u2)
  | CommitRaises msg => ((false, "Deactivation failed: " ++ msg), user)
  end.

(** [UserService.reactivate_user(user)]. *)
Definition reactivate_user (user : User) (c : CommitOutcome)
    : (bool * string) * User :=
  let u1 :=
    if is_verified user then with_status ACTIVE user
    else with_status PENDING user in
  let u2 := with_is_active true u1 in
  match c with
  | Committed => ((true, "User account reactivated"), u2)
  | CommitRaises msg => ((false, "Reactivation failed: " ++ msg), user)
  end.

End UserService.

(* ------------------------------------------------------------------ *)
(** ** Animals and health records (app/models/animal.py) *)

(** The columns the services read or branch on are fields of their own; the
    remaining columns, which the code only copies, are kept by name in
    [a_attrs] and [hr_attrs]. *)
Record Animal : Type := mkAnimal {
  a_id : string;
  a_tag_id : string;
  a_species : AnimalSpecies;
  a_gender : Gender;
  a_health_status : HealthStatus;
  a_production_status : option ProductionStatus;
  a_farmer_id : string;
  a_veterinarian_id : option string;
  a_birth_date : option date;
  a_purchase_date : option date;
  a_last_checkup_date : option date;
  a_attrs : list (string * JValue);
  a_is_active : bool;
  a_deleted_at : option datetime
}.

Record HealthRecord : Type := mkHealthRecord {
  hr_id : string;
  hr_animal_id : string;
  hr_recorded_by_id : string;
  hr_checkup_date : date;
  hr_next_checkup_date : option date;
  hr_overall_condition : option HealthStatus;
  hr_attrs : list (string * JValue);
  hr_is_active : bool
}.

(** The three tables. *)
Record DB : Type := mkDB {
  users : list User;
  animals : list Animal;
  health_records : list HealthRecord
}.

Module AnimalModel.

Definition with_veterinarian_id (v : option string) (a : Animal) : Animal :=
  mkAnimal (a_id a) (a_tag_id a) (a_species a) (a_gender a)
    (a_health_status a) (a_production_status a) (a_farmer_id a) v
    (a_birth_date a) (a_purchase_date a) (a_last_checkup_date a)
    (a_attrs a) (a_is_active a) (a_deleted_at a).

Definition with_health_status (h : HealthStatus) (a : Animal) : Animal :=
  mkAnimal (a_id a) (a_tag_id a) (a_species a) (a_gender a)
    h (a_production_status a) (a_farmer_id a) (a_veterinarian_id a)
    (a_birth_date a) (a_purchase_date a) (a_last_checkup_date a)
    (a_attrs a) (a_is_active a) (a_deleted_at a).

Definition with_last_checkup_date (d : option date) (a : Animal) : Animal :=
  mkAnimal (a_id a) (a_tag_id a) (a_species a) (a_gender a)
    (a_health_status a) (a_production_status a) (a_farmer_id a)
    (a_veterinarian_id a) (a_birth_date a) (a_purchase_date a) d
    (a_attrs a) (a_is_active a) (a_deleted_at a).

(** The two assignments of [BaseModel.soft_delete], at time [now]. *)
Definition soft_deleted (now : datetime) (a : Animal) : Animal :=
  mkAnimal (a_id a) (a_tag_id a) (a_species a) (a_gender a)
    (a_health_status a) (a_production_status a) (a_farmer_id a)
    (a_veterinarian_id a) (a_birth_date a) (a_purchase_date a)
    (a_last_checkup_date a) (a_attrs a) false (Some now).

End AnimalModel.

(* ------------------------------------------------------------------ *)
(** ** Queries and row updates *)

Module Store.

(** Replace the first row that satisfies [p], the row [find p] returns. *)
Fixpoint replace_first {A : Type} (p : A -> bool) (x' : A) (l : list A)
    : list A :=
  match l with
  | [] => []
  | x :: rest => if p x then x' :: rest else x :: replace_first p x' rest
  end.

(** [filter_by(id=i, is_active=True)] on the three kinds of rows. *)
Definition animal_active_id (i : string) (a : Animal) : bool :=
  (a_id a =? i) && a_is_active a.

Definition user_active_id (i : string) (u : User) : bool :=
  (u_id u =? i) && u_is_active u.

(** The joined-table subclasses [Farmer] and [Veterinarian] hold the users
    of that role. *)
Definition role_active_id (r : UserRole) (i : string) (u : User) : bool :=
  Enum.role_eqb (u_user_type u) r && (u_id u =? i) && u_is_active u.

Definition get_animal (db : DB) (i : string) : option Animal :=
  find (animal_active_id i) (animals db).

Definition get_user (db : DB) (i : string) : option User :=
  find (user_active_id i) (users db).

Definition get_farmer (db : DB) (i : string) : option User :=
  find (role_active_id FARMER i) (users db).

Definition get_veterinarian (db : DB) (i : string) : option User :=
  find (role_active_id VETERINARIAN i) (users db).

Definition set_animals (l : list Animal) (db : DB) : DB :=
  mkDB (users db) l (health_records db).

Definition set_users (l : list User) (db : DB) : DB :=
  mkDB l (animals db) (health_records db).

(** Write back the animal fetched by [get_animal db i]. *)
Definition put_animal (i : string) (a' : Animal) (db : DB) : DB :=
  set_animals (replace_first (animal_active_id i) a' (animals db)) db.

(** Write back the user fetched by [get_user db i]. *)
Definition put_user (i : string) (u' : User) (db : DB) : DB :=
  set_users (replace_first (user_active_id i) u' (users db)) db.

(** [tag_id = Column(String(50), unique=True, ...)]: the table refuses a
    new row whose tag is already held by some row, active or not. *)
Definition tag_taken (db : DB) (tag : string) : bool :=
  existsb (fun a => a_tag_id a =? tag) (animals db).

Definition UNIQUE_TAG_ERROR : string :=
  "IntegrityError: UNIQUE constraint failed: animals.tag_id".

(** The commit that follows [db.session.add(animal)]. *)
Definition commit_new_animal (a : Animal) (db : DB) (c : CommitOutcome)
    : string + DB :=
  match c with
  | CommitRaises msg => inl msg
  | Committed =>
      if tag_taken db (a_tag_id a) then inl UNIQUE_TAG_ERROR
      else inr (set_animals (animals db ++ [a])%list db)
  end.

End Store.

(* ------------------------------------------------------------------ *)
(** ** Early returns

    A service body is a chain of checks, each of which may return an error
    message at once; [inl msg] is that early return. *)

Module Early.

Definition Res (T : Type) : Type := (string + T)%type.

Definition ret {T : Type} (x : T) : Res T := inr x.

Definition stop {T : Type} (msg : string) : Res T := inl msg.

Definition bind {T U : Type} (m : Res T) (k : T -> Res U) : Res U :=
  match m with
  | inl e => inl e
  | inr x => k x
  end.

(** [if not b: return None, msg]. *)
Definition require (b : bool) (msg : string) : Res unit :=
  if b then inr tt else inl msg.

(** [x = q.first(); if not x: return None, msg]. *)
Definition found {T : Type} (o : option T) (msg : string) : Res T :=
  match o with
  | Some x => inr x
  | None => inl msg
  end.

(** An optional field: absent or empty gives [None]; otherwise [parse]
    decides, and its [ValueError] returns [msg]. *)
Definition optional {T : Type} (d : Payload) (key : string)
    (parse : string -> option T) (msg : string) : Res (option T) :=
  match Json.get_truthy d key with
  | None => inr None
  | Some s =>
      match parse s with
      | Some v => inr (Some v)
      | None => inl msg
      end
  end.

End Early.

Notation "x <- m ;; k" := (Early.bind m (fun x => k))
  (at level 61, m at next level, right associativity).

(* ------------------------------------------------------------------ *)
(** ** Animal service (app/services/animal_service.py) *)

Module AnimalService.

Import Early.

(** [data.get(k)]. *)
Definition raw (d : Payload) (k : string) : JValue :=
  match Json.get d k with
  | Some v => v
  | None => JNull
  end.

(** [data.get(k, '').strip() if data.get(k) else None]. *)
Definition stripped (d : Payload) (k : string) : JValue :=
  match Json.get_truthy d k with
  | Some s => JStr (PyStr.strip s)
  | None => JNull
  end.

Definition SPECIES_VALUES : string :=
  "['cattle', 'buffalo', 'goat', 'sheep', 'poultry', 'swine', 'other']".
Definition GENDER_VALUES : string := "['male', 'female']".
Definition HEALTH_VALUES : string :=
  "['healthy', 'sick', 'under_treatment', 'recovering', 'quarantine', 'deceased']".
Definition PRODUCTION_VALUES : string :=
  "['active', 'dry', 'pregnant', 'lactating', 'breeding', 'retired']".

(** The Python pair [(value, message)] a service returns. *)
Definition outcome {T : Type} (r : Res (T * DB)) (db : DB)
    : (option T * option string) * DB :=
  match r with
  | inr (x, db') => ((Some x, None), db')
  | inl msg => ((None, Some msg), db)
  end.

(** The body of [create_animal] up to the construction of the row. *)
Definition new_animal (L : Library) (db : DB) (animal_data : Payload)
    (farmer_id new_id : string) : Res Animal :=
  let '(valid, missing) :=
    Helpers.validate_required_fields animal_data
      ["tag_id"; "species"; "gender"] in
  _ <- require valid
         ("Missing required fields: " ++ PyStr.join ", " missing) ;;
  _ <- found (Store.get_farmer db farmer_id) "Farmer not found" ;;
  species <- found
    (Enum.species_of_value (PyStr.lower (Json.item animal_data "species")))
    ("Invalid species. Must be one of: " ++ SPECIES_VALUES) ;;
  gender <- found
    (Enum.gender_of_value (PyStr.lower (Json.item animal_data "gender")))
    ("Invalid gender. Must be one of: " ++ GENDER_VALUES) ;;
  let existing_animal :=
    find (fun a => (a_tag_id a =? Json.item animal_data "tag_id")
                   && (a_farmer_id a =? farmer_id) && a_is_active a)
         (animals db) in
  _ <- require (match existing_animal with Some _ => false | None => true end)
         "An animal with this tag ID already exists for this farmer" ;;
  health <- optional animal_data "health_status"
    (fun s => Enum.health_of_value (PyStr.lower s))
    ("Invalid health status. Must be one of: " ++ HEALTH_VALUES) ;;
  production_status <- optional animal_data "production_status"
    (fun s => Enum.production_of_value (PyStr.lower s))
    ("Invalid production status. Must be one of: " ++ PRODUCTION_VALUES) ;;
  birth_date <- optional animal_data "birth_date" (strptime_ymd L)
    "Invalid birth_date format. Use YYYY-MM-DD" ;;
  purchase_date <- optional animal_data "purchase_date" (strptime_ymd L)
    "Invalid purchase_date format. Use YYYY-MM-DD" ;;
  ret {| a_id := new_id;
         a_tag_id := PyStr.strip (Json.item animal_data "tag_id");
         a_species := species;
         a_gender := gender;
         a_health_status :=
           match health with Some h => h | None => HEALTHY end;
         a_production_status := production_status;
         a_farmer_id := farmer_id;
         a_veterinarian_id := None;
         a_birth_date := birth_date;
         a_purchase_date := purchase_date;
         a_last_checkup_date := None;
         a_attrs :=
           [ ("name", stripped animal_data "name");
             ("breed", stripped animal_data "breed");
             ("age_months", raw animal_data "age_months");
             ("weight_kg", raw animal_data "weight_kg");
             ("height_cm", raw animal_data "height_cm");
             ("color", stripped animal_data "color");
             ("purchase_price", raw animal_data "purchase_price");
             ("source", stripped animal_data "source");
             ("vaccination_status",
               stripped animal_data "vaccination_status");
             ("daily_milk_yield", raw animal_data "daily_milk_yield");
             ("lactation_number", raw animal_data "lactation_number");
             ("notes", stripped animal_data "notes");
             ("special_conditions",
               stripped animal_data "special_conditions") ];
         a_is_active := true;
         a_deleted_at := None |}.

(** [AnimalService.create_animal(animal_data, farmer_id)]; [new_id] is the
    primary key drawn for the row. *)
Definition create_animal (L : Library) (db : DB) (animal_data : Payload)
    (farmer_id new_id : string) (c : CommitOutcome)
    : (option Animal * option string) * DB :=
  outcome
    (animal <- new_animal L db animal_data farmer_id new_id ;;
     match Store.commit_new_animal animal db c with
     | inr db' => ret (animal, db')
     | inl e => stop ("Failed to create animal: " ++ e)
     end)
    db.

(** [AnimalService.assign_veterinarian(animal_id, vet_id, assigned_by)]. *)
Definition assign_veterinarian (db : DB) (animal_id vet_id : string)
    (assigned_by_user_id : string) (c : CommitOutcome)
    : (option Animal * option string) * DB :=
  outcome
    (animal <- found (Store.get_animal db animal_id) "Animal not found" ;;
     vet <- found (Store.get_veterinarian db vet_id)
              "Veterinarian not found" ;;
     _ <- require (Enum.status_value (u_status vet) =? "active")
            "Veterinarian is not active" ;;
     let animal' := AnimalModel.with_veterinarian_id (Some vet_id) animal in
     match c with
     | Committed => ret (animal', Store.put_animal animal_id animal' db)
     | CommitRaises e => stop ("Failed to assign veterinarian: " ++ e)
     end)
    db.

(** [AnimalService.create_health_record(health_record_data, recorded_by)];
    [today] is [date.today()] and [new_id] the key drawn for the record. *)
Definition create_health_record (L : Library) (db : DB)
    (health_record_data : Payload) (recorded_by_user_id new_id : string)
    (today : date) (c : CommitOutcome)
    : (option HealthRecord * option string) * DB :=
  outcome
    (let '(valid, missing) :=
       Helpers.validate_required_fields health_record_data ["animal_id"] in
     _ <- require valid
            ("Missing required fields: " ++ PyStr.join ", " missing) ;;
     let animal_id := Json.item health_record_data "animal_id" in
     animal <- found (Store.get_animal db animal_id) "Animal not found" ;;
     checkup <- optional health_record_data "checkup_date" (strptime_ymd L)
       "Invalid checkup_date format. Use YYYY-MM-DD" ;;
     let checkup_date :=
       match checkup with Some d => d | None => today end in
     next_checkup_date <- optional health_record_data "next_checkup_date"
       (strptime_ymd L) "Invalid next_checkup_date format. Use YYYY-MM-DD" ;;
     overall_condition <- optional health_record_data "overall_condition"
       (fun s => Enum.health_of_value (PyStr.lower s))
       ("Invalid overall_condition. Must be one of: " ++ HEALTH_VALUES) ;;
     let health_record :=
       {| hr_id := new_id;
          hr_animal_id := animal_id;
          hr_recorded_by_id := recorded_by_user_id;
          hr_checkup_date := checkup_date;
          hr_next_checkup_date := next_checkup_date;
          hr_overall_condition := overall_condition;
          hr_attrs :=
            [ ("temperature", raw health_record_data "temperature");
              ("weight_kg", raw health_record_data "weight_kg");
              ("heart_rate", raw health_record_data "heart_rate");
              ("respiratory_rate",
                raw health_record_data "respiratory_rate");
              ("symptoms", stripped health_record_data "symptoms");
              ("diagnosis", stripped health_record_data "diagnosis");
              ("treatment_given",
                stripped health_record_data "treatment_given");
              ("recommendations",
                stripped health_record_data "recommendations");
              ("notes", stripped health_record_data "notes") ];
          hr_is_active := true |} in
     (* db.session.add(health_record) *)
     let pending :=
       mkDB (users db) (animals db)
            (health_records db ++ [health_record])%list in
     let pending :=
       match overall_condition with
       | Some condition =>
           Store.put_animal animal_id
             (AnimalModel.with_last_checkup_date (Some checkup_date)
                (AnimalModel.with_health_status condition animal))
             pending
       | None => pending
       end in
     match c with
     | Committed => ret (health_record, pending)
     | CommitRaises e => stop ("Failed to create health record: " ++ e)
     end)
    db.

(** [AnimalService.deactivate_animal(animal_id, reason, by)], at [now]. *)
Definition deactivate_animal (db : DB) (animal_id : string)
    (reason deactivated_by_user_id : option string) (now : datetime)
    (c : CommitOutcome) : (option Animal * option string) * DB :=
  match Store.get_animal db animal_id with
  | None => ((None, Some "Animal not found"), db)
  | Some animal =>
      (* animal.soft_delete() *)
      let animal' := AnimalModel.soft_deleted now animal in
      match c with
      | Committed =>
          ((Some animal', Some "Animal deactivated successfully"),
           Store.put_animal animal_id animal' db)
      | CommitRaises e =>
          ((None, Some ("Failed to deactivate animal: " ++ e)), db)
      end
  end.

End AnimalService.

(* ------------------------------------------------------------------ *)
(** ** Responses (app/utils/helpers.py) *)

(** [User.to_dict()]: the columns without [password_hash] and [otp_code]. *)
Record UserDict : Type := mkUserDict {
  ud_id : string;
  ud_name : string;
  ud_email : string;
  ud_phone : string;
  ud_user_type : UserRole;
  ud_status : UserStatus;
  ud_email_verified : bool;
  ud_phone_verified : bool;
  ud_otp_created_at : option datetime;
  ud_is_active : bool;
  ud_deleted_at : option datetime
}.

(** The [data] member of a response. [DAnimal a] and [DHealthRecord h] are
    the dictionaries [to_dict()] builds from the rows [a] and [h]. *)
Inductive RespData : Type :=
| DAnimal (a : Animal)
| DHealthRecord (h : HealthRecord)
| DAnimalRecords (a : Animal) (records : list HealthRecord)
| DUserReason (user : UserDict) (reason : JValue)
| DDict (kv : list (string * string)).

Record Response : Type := mkResponse {
  r_success : bool;
  r_message : string;
  r_data : option RespData;
  r_errors : option (list string);
  r_timestamp : datetime;
  r_status_code : Z
}.

Module Http.

Definition user_to_dict (u : User) : UserDict :=
  mkUserDict (u_id u) (u_name u) (u_email u) (u_phone u) (u_user_type u)
    (u_status u) (u_email_verified u) (u_phone_verified u)
    (u_otp_created_at u) (u_is_active u) (u_deleted_at u).

(** [create_response(success, message, data, errors, status_code)] at
    time [now]; an absent [data] or [errors] member is [None]. *)
Definition create_response (success : bool) (message : string)
    (data : option RespData) (errors : option (list string))
    (status_code : Z) (now : datetime) : Response :=
  mkResponse success message data errors now status_code.

Definition success_response (message : string) (data : option RespData)
    (status_code : Z) (now : datetime) : Response :=
  create_response true message data None status_code now.

Definition error_response (message : string)
    (errors : option (list string)) (status_code : Z) (now : datetime)
    : Response :=
  create_response false message None errors status_code now.

(** The message half of a service's pair, where the code reads it. *)
Definition text (m : option string) : string :=
  match m with
  | Some s => s
  | None => ""
  end.

End Http.

(* ------------------------------------------------------------------ *)
(** ** Decorators (app/utils/decorators.py)

    [identity] is the subject of the bearer token, as [get_jwt_identity()]
    returns it. *)

Module Decorators.

Import Http.

Definition auth_required {S : Type} (db : DB) (identity : string)
    (now : datetime) (unchanged : S) (f : User -> Response * S)
    : Response * S :=
  match Store.get_user db identity with
  | None =>
      (error_response "User not found or inactive" None 401 now, unchanged)
  | Some current_user =>
      if negb (UserModel.can_login current_user) then
        (error_response "User account is not active or not verified"
           None 403 now, unchanged)
      else f current_user
  end.

Definition admin_required {S : Type} (db : DB) (identity : string)
    (now : datetime) (unchanged : S) (f : User -> Response * S)
    : Response * S :=
  auth_required db identity now unchanged
    (fun current_user =>
       if negb (Enum.role_eqb (u_user_type current_user) ADMIN) then
         (error_response "Access denied. Required roles: ['admin']"
            None 403 now, unchanged)
       else f current_user).

End Decorators.

(* ------------------------------------------------------------------ *)
(** ** Animal endpoints (app/api/animals.py)

    Each handler is given the [current_user] its decorator resolved. *)

Module AnimalsApi.

Import Http.

(** [GET /animals/<animal_id>]. *)
Definition get_animal (db : DB) (current_user : User) (animal_id : string)
    (now : datetime) : Response :=
  match Store.get_animal db animal_id with
  | None => error_response "Animal not found" None 404 now
  | Some animal =>
      match u_user_type current_user with
      | FARMER =>
          if negb (a_farmer_id animal =? u_id current_user) then
            error_response "Access denied" None 403 now
          else
            success_response "Animal retrieved successfully"
              (Some (DAnimal animal)) 200 now
      | VETERINARIAN =>
          (* str(None) is 'None' *)
          if negb (match a_veterinarian_id animal with
                   | Some v => v
                   | None => "None"
                   end =? u_id current_user) then
            error_response "Access denied" None 403 now
          else
            success_response "Animal retrieved successfully"
              (Some (DAnimal animal)) 200 now
      | ADMIN =>
          success_response "Animal retrieved successfully"
            (Some (DAnimal animal)) 200 now
      end
  end.

Section Delegated.

(** Two services that the handlers below call once access is granted:
    [AnimalService.update_animal_profile(animal_id, data, user_id)] and
    [AnimalService.get_animal_health_history(animal_id, limit)]. *)
Variable update_animal_profile :
  DB -> string -> Payload -> string -> CommitOutcome ->
  (option Animal * option string) * DB.
Variable get_animal_health_history :
  DB -> string -> Z -> option (list HealthRecord) * option string.

(** [PUT /animals/<animal_id>]. *)
Definition update_animal (db : DB) (current_user : User)
    (animal_id : string) (data : option Payload) (now : datetime)
    (c : CommitOutcome) : Response * DB :=
  match Store.get_animal db animal_id with
  | None => (error_response "Animal not found" None 404 now, db)
  | Some animal =>
      let denied :=
        match u_user_type current_user with
        | FARMER => negb (a_farmer_id animal =? u_id current_user)
        | VETERINARIAN =>
            negb (match a_veterinarian_id animal with
                  | Some v => v
                  | None => "None"
                  end =? u_id current_user)
        | ADMIN => false
        end in
      if denied then (error_response "Access denied" None 403 now, db)
      else
        match data with
        | Some ((_ :: _) as d) =>
            match update_animal_profile db animal_id d
                    (u_id current_user) c with
            | ((Some updated_animal, message), db') =>
                (success_response (text message)
                   (Some (DAnimal updated_animal)) 200 now, db')
            | ((None, message), db') =>
                (error_response (text message) None 400 now, db')
            end
        | _ => (error_response "No data provided" None 400 now, db)
        end
  end.

(** [GET /animals/<animal_id>/health-records]; [limit] is the query
    argument of that name, 10 when absent. *)
Definition get_animal_health_records (db : DB) (current_user : User)
    (animal_id : string) (limit : Z) (now : datetime) : Response :=
  match Store.get_animal db animal_id with
  | None => error_response "Animal not found" None 404 now
  | Some animal =>
      let denied :=
        match u_user_type current_user with
        | FARMER => negb (a_farmer_id animal =? u_id current_user)
        | VETERINARIAN =>
            negb (match a_veterinarian_id animal with
                  | Some v => v
                  | None => "None"
                  end =? u_id current_user)
        | ADMIN => false
        end in
      if denied then error_response "Access denied" None 403 now
      else
        match get_animal_health_history db animal_id limit with
        | (Some health_records, _) =>
            success_response "Health records retrieved successfully"
              (Some (DAnimalRecords animal health_records)) 200 now
        | (None, error_msg) =>
            error_response (text error_msg) None 500 now
        end
  end.

End Delegated.

(** [POST /animals/<animal_id>/assign-vet]. *)
Definition assign_veterinarian (db : DB) (current_user : User)
    (animal_id : string) (data : option Payload) (now : datetime)
    (c : CommitOutcome) : Response * DB :=
  if negb (Enum.role_eqb (u_user_type current_user) FARMER
           || Enum.role_eqb (u_user_type current_user) ADMIN) then
    (error_response "Only farmers and admins can assign veterinarians"
       None 403 now, db)
  else
    match Store.get_animal db animal_id with
    | None => (error_response "Animal not found" None 404 now, db)
    | Some animal =>
        if Enum.role_eqb (u_user_type current_user) FARMER
           && negb (a_farmer_id animal =? u_id current_user) then
          (error_response "Access denied" None 403 now, db)
        else
          match data with
          | Some ((_ :: _) as d) =>
              let '(valid, missing) :=
                Helpers.validate_required_fields d ["veterinarian_id"] in
              if negb valid then
                (error_response "Missing required fields" (Some missing)
                   400 now, db)
              else
                let vet_id := Json.item d "veterinarian_id" in
                match AnimalService.assign_veterinarian db animal_id vet_id
                        (u_id current_user) c with
                | ((Some updated_animal, _), db') =>
                    (success_response "Veterinarian assigned successfully"
                       (Some (DAnimal updated_animal)) 200 now, db')
                | ((None, error_msg), db') =>
                    (error_response (text error_msg) None 400 now, db')
                end
          | _ => (error_response "No data provided" None 400 now, db)
          end
    end.

(** [DELETE /animals/<animal_id>]. *)
Definition delete_animal (db : DB) (current_user : User)
    (animal_id : string) (now : datetime) (c : CommitOutcome)
    : Response * DB :=
  if negb (Enum.role_eqb (u_user_type current_user) FARMER
           || Enum.role_eqb (u_user_type current_user) ADMIN) then
    (error_response "Only farmers and admins can delete animals"
       None 403 now, db)
  else
    match Store.get_animal db animal_id with
    | None => (error_response "Animal not found" None 404 now, db)
    | Some animal =>
        if Enum.role_eqb (u_user_type current_user) FARMER
           && negb (a_farmer_id animal =? u_id current_user) then
          (error_response "Access denied" None 403 now, db)
        else
          match AnimalService.deactivate_animal db animal_id
                  (Some "Deleted by user") (Some (u_id current_user))
                  now c with
          | ((Some _, message), db') =>
              (success_response (text message) None 200 now, db')
          | ((None, message), db') =>
              (error_response (text message) None 500 now, db')
          end
    end.

End AnimalsApi.

(* ------------------------------------------------------------------ *)
(** ** User endpoints (app/api/users.py) *)

Module UsersApi.

Import Http.

(** [PUT /users/<user_id>/status], behind [admin_required]. *)
Definition update_user_status (db : DB) (current_user : User)
    (user_id : string) (data : option Payload) (now : datetime)
    (c : CommitOutcome) : Response * DB :=
  match data with
  | Some ((_ :: _) as d) =>
      let '(valid, missing) :=
        Helpers.validate_required_fields d ["status"] in
      if negb valid then
        (error_response "Missing required fields" (Some missing) 400 now,
         db)
      else
        let new_status := Json.item d "status" in
        let reason :=
          match Json.get d "reason" with
          | Some v => v
          | None => JStr ""
          end in
        if negb (PyStr.mem new_status
                   ["active"; "inactive"; "pending"; "suspended"]) then
          (error_response "Invalid status" None 400 now, db)
        else
          match Store.get_user db user_id with
          | None => (error_response "User not found" None 404 now, db)
          | Some user =>
              match Enum.status_of_value new_status with
              | None =>
                  (error_response
                     ("Failed to update status: '" ++ new_status
                        ++ "' is not a valid UserStatus")
                     None 500 now, db)
              | Some st =>
                  let user1 := UserModel.with_status st user in
                  let user2 :=
                    if new_status =? "inactive" then
                      UserModel.with_is_active false user1
                    else if PyStr.mem new_status ["active"; "pending"] then
                      UserModel.with_is_active true user1
                    else user1 in
                  match c with
                  | Committed =>
                      (success_response
                         ("User status updated to " ++ new_status)
                         (Some (DUserReason (user_to_dict user2) reason))
                         200 now,
                       Store.put_user user_id user2 db)
                  | CommitRaises e =>
                      (error_response ("Failed to update status: " ++ e)
                         None 500 now, db)
                  end
              end
          end
  | _ => (error_response "No data provided" None 400 now, db)
  end.

(** The endpoint with its decorator. *)
Definition update_user_status_endpoint (db : DB) (identity : string)
    (user_id : string) (data : option Payload) (now : datetime)
    (c : CommitOutcome) : Response * DB :=
  Decorators.admin_required db identity now db
    (fun current_user =>
       update_user_status db current_user user_id data now c).

End UsersApi.

(* ------------------------------------------------------------------ *)
(** ** Authentication endpoints (app/auth/routes.py) *)

Module AuthRoutes.

Import Http.

(** The check [POST /verify-otp] makes: [verify_otp(user, provided_otp)]. *)
Definition verify_signup_code (user : User) (provided_otp : string)
    (now : datetime) : bool * string :=
  AuthUtils.verify_otp user provided_otp
    AuthUtils.DEFAULT_VALIDITY_MINUTES now.

(** The check [POST /reset-password] makes:
    [verify_otp(user, reset_code, validity_minutes=30)]. *)
Definition verify_reset_code (user : User) (reset_code : string)
    (now : datetime) : bool * string :=
  AuthUtils.verify_otp user reset_code AuthUtils.RESET_VALIDITY_MINUTES now.

(** [POST /forgot-password]. [debug] is the [DEBUG] setting and [code] the
    value [generate_otp] draws when it is called. *)
Definition forgot_password (db : DB) (data : option Payload)
    (debug : bool) (code : string) (now : datetime) (c : CommitOutcome)
    : Response * DB :=
  match data with
  | Some ((_ :: _) as d) =>
      let '(valid, missing) :=
        Helpers.validate_required_fields d ["email"] in
      if negb valid then
        (error_response "Missing required fields" (Some missing) 400 now,
         db)
      else
        let email :=
          PyStr.strip (PyStr.lower (Json.item d "email")) in
        match AuthUtils.find_active_by_email (users db) email with
        | None =>
            (success_response
               "If the email exists, a reset code has been sent"
               None 200 now, db)
        | Some user =>
            match AuthUtils.generate_and_store_otp user "password_reset"
                    code now c with
            | (inl otp_code, user') =>
                let response_data :=
                  [("message", "Password reset code sent to your email")] in
                let response_data :=
                  if debug then
                    (response_data ++ [("reset_code", otp_code)])%list
                  else response_data in
                (success_response "Password reset code sent"
                   (Some (DDict response_data)) 200 now,
                 Store.set_users
                   (Store.replace_first
                      (fun u => (u_email u =? email) && u_is_active u)
                      user' (users db))
                   db)
            | (inr e, _) =>
                (error_response "Failed to send reset code" (Some [e])
                   500 now, db)
            end
        end
  | _ => (error_response "No data provided" None 400 now, db)
  end.

End AuthRoutes.


(* ------------------------------------------------------------------ *)
(** ** More of Python's strings *)

Module PyText.

(** [str.isdigit()] on one ASCII character. *)
Definition is_digit (c : ascii) : bool :=
  let n := nat_of_ascii c in ((48 <=? n) && (n <=? 57))%nat.



Fixpoint chars (s : string) : list ascii :=
  match s with
  | EmptyString => []
  | String c r => c :: chars r
  end.

Fixpoint of_chars (l : list ascii) : string :=
  match l with
  | [] => EmptyString
  | c :: r => String c (of_chars r)
  end.

(** [''.join(filter(p, s))]. *)
Definition keep (p : ascii -> bool) (s : string) : string :=
  of_chars (filter p (chars s)).

(** [all(p(c) for c in s)] and [any(p(c) for c in s)]. *)
Definition all (p : ascii -> bool) (s : string) : bool :=
  forallb p (chars s).


(** [s[n:]] and [s[:n]] for [n >= 0]. *)
Definition drop (n : nat) (s : string) : string :=
  of_chars (skipn n (chars s)).

Definition take (n : nat) (s : string) : string :=
  of_chars (firstn n (chars s)).


(** [s.startswith(p)]. *)
Definition startswith (p s : string) : bool := String.prefix p s.

End PyText.

(* ------------------------------------------------------------------ *)
(** ** Validators (app/utils/validators.py) and phone formatting
       (app/utils/helpers.py), on ASCII text *)

Module Validators.

Import PyText.

(** [format_phone_number(phone)] for a string argument. *)
Definition format_phone_number (phone : string) : option string :=
  if negb (PyStr.truthy phone) then None
  else
    let phone_digits := keep is_digit phone in
    if Nat.eqb (String.length phone_digits) 10 then Some phone_digits
    else if Nat.eqb (String.length phone_digits) 13
            && startswith "91" phone_digits then
      Some (drop 2 phone_digits)
    else if Nat.eqb (String.length phone_digits) 12
            && startswith "0" phone_digits then
      Some (drop 1 phone_digits)
    else Some phone_digits.








End Validators.

(* ------------------------------------------------------------------ *)
(** ** Pagination (app/utils/helpers.py)

    A query is the list of the rows it selects, in order. [offset] and
    [limit] are the list operations for non-negative arguments; databases
    disagree on negative ones, which the properties below exclude. *)

Record Pagination (A : Type) : Type := mkPagination {
  pg_items : list A;
  pg_total : Z;
  pg_page : Z;
  pg_per_page : Z;
  pg_pages : Z;
  pg_has_next : bool;
  pg_has_prev : bool
}.

Arguments mkPagination {A}.
Arguments pg_items {A}.
Arguments pg_total {A}.
Arguments pg_page {A}.
Arguments pg_per_page {A}.
Arguments pg_pages {A}.
Arguments pg_has_next {A}.
Arguments pg_has_prev {A}.

Module Paging.

Definition offset {A : Type} (n : Z) (q : list A) : list A :=
  skipn (Z.to_nat n) q.

Definition limit {A : Type} (n : Z) (q : list A) : list A :=
  firstn (Z.to_nat n) q.

(** [paginate_query(query, page, per_page, max_per_page)]; [None] is the
    [ZeroDivisionError] of [// per_page]. *)
Definition paginate_query {A : Type} (query : list A)
    (page per_page max_per_page : Z) : option (Pagination A) :=
  let per_page :=
    if (max_per_page <? per_page)%Z then max_per_page else per_page in
  let total := Z.of_nat (List.length query) in
  let items := limit per_page (offset ((page - 1) * per_page) query) in
  if (per_page =? 0)%Z then None
  else
    Some {| pg_items := items;
            pg_total := total;
            pg_page := page;
            pg_per_page := per_page;
            pg_pages := (total + per_page - 1) / per_page;
            pg_has_next := (page * per_page <? total)%Z;
            pg_has_prev := (1 <? page)%Z |}.

Definition DEFAULT_MAX_PER_PAGE : Z := 100.

End Paging.

(* ------------------------------------------------------------------ *)
(** ** Masking (app/utils/helpers.py)

    The data [mask_sensitive_data] walks: dictionaries, lists and other
    values. *)

Unset Elimination Schemes.

Inductive Tree : Type :=
| Leaf (v : JValue)
| Dict (kv : list (string * Tree))
| Arr (items : list Tree).

Set Elimination Schemes.

Module Masking.

Definition MASK : Tree := Leaf (JStr "***MASKED***").

Definition DEFAULT_SENSITIVE : list string :=
  ["password"; "password_hash"; "otp_code"; "token"].

(** [mask_sensitive_data(data, sensitive_fields)]. *)
Fixpoint mask_sensitive_data (sensitive_fields : list string) (data : Tree)
    : Tree :=
  match data with
  | Dict kv =>
      Dict
        ((fix entries (l : list (string * Tree)) : list (string * Tree) :=
            match l with
            | [] => []
            | (key, value) :: rest =>
                (key,
                 if PyStr.mem key sensitive_fields then MASK
                 else
                   match value with
                   | Dict _ | Arr _ =>
                       mask_sensitive_data sensitive_fields value
                   | Leaf _ => value
                   end) :: entries rest
            end) kv)
  | Arr items =>
      Arr ((fix each (l : list Tree) : list Tree :=
              match l with
              | [] => []
              | item :: rest =>
                  mask_sensitive_data sensitive_fields item :: each rest
              end) items)
  | Leaf _ => data
  end.

(** No dictionary, at any depth, maps a sensitive key to anything but the
    mask. *)
Inductive Masked (sensitive_fields : list string) : Tree -> Prop :=
| Masked_leaf v : Masked sensitive_fields (Leaf v)
| Masked_dict kv :
    (forall key value, In (key, value) kv ->
       PyStr.mem key sensitive_fields = true -> value = MASK) ->
    (forall key value, In (key, value) kv ->
       Masked sensitive_fields value) ->
    Masked sensitive_fields (Dict kv)
| Masked_arr items :
    (forall item, In item items -> Masked sensitive_fields item) ->
    Masked sensitive_fields (Arr items).

End Masking.

(* ------------------------------------------------------------------ *)
(** ** One-time codes and messages (app/services/otp_service.py) *)

Module OTPService.

Import UserModel.

(** [OTPService.generate_otp_for_user(user, purpose, length)]: [code] is
    the value drawn by [generate_otp(length)]; [inr msg] is the commit
    exception, raised again after the rollback. *)
Definition generate_otp_for_user (user : User) (purpose : string)
    (code : string) (now : datetime) (c : CommitOutcome)
    : (string + string) * User :=
  let user' := with_otp (Some code) (Some now) user in
  match c with
  | Committed => (inl code, user')
  | CommitRaises msg => (inr msg, user)
  end.

(** [OTPService.verify_user_otp(user, provided_otp, validity_minutes)]. *)
Definition verify_user_otp (user : User) (provided_otp : string)
    (validity_minutes : Z) (now : datetime) : bool * string :=
  if AuthUtils.otp_absent user then
    (false, "No OTP found for this user")
  else if negb (match u_otp_code user with
                | Some code => code =? provided_otp
                | None => false
                end) then
    (false, "Invalid OTP")
  else if negb (Helpers.is_otp_valid (u_otp_created_at user)
                  validity_minutes now) then
    (false, "OTP has expired")
  else
    (true, "OTP verified successfully").

(** [OTPService.clear_user_otp(user)]; [Some msg] is the commit exception,
    raised again after the rollback. *)
Definition clear_user_otp (user : User) (c : CommitOutcome)
    : option string * User :=
  match c with
  | Committed => (None, with_otp None None user)
  | CommitRaises msg => (Some msg, user)
  end.

(** [OTPService.is_otp_expired(user, validity_minutes)]. *)
Definition is_otp_expired (user : User) (validity_minutes : Z)
    (now : datetime) : bool :=
  match u_otp_created_at user with
  | None => true
  | Some _ =>
      negb (Helpers.is_otp_valid (u_otp_created_at user) validity_minutes now)
  end.

(** [SMSService.send_otp_sms] and [EmailService.send_verification_email]:
    both only log, and report success in either mode. *)
Definition send_otp_sms (debug : bool) : bool * string :=
  if debug then (true, "SMS sent (development mode)")
  else (true, "SMS sent successfully").

Definition send_verification_email (debug : bool) : bool * string :=
  if debug then (true, "Email sent (development mode)")
  else (true, "Email sent successfully").

End OTPService.

(* ------------------------------------------------------------------ *)
(** ** Verification in the user service (app/services/user_service.py) and
       the remaining code utilities (app/auth/utils.py) *)

Module Verification.

Import UserModel.

(** [clear_otp(user)] of app/auth/utils.py; [Some msg] is the commit
    exception, raised again after the rollback. *)
Definition clear_otp (user : User) (c : CommitOutcome)
    : option string * User :=
  match c with
  | Committed => (None, with_otp None None user)
  | CommitRaises msg => (Some msg, user)
  end.

(** [UserService.initiate_user_verification(user, verification_type)]. *)
Definition initiate_user_verification (user : User)
    (verification_type : string) (debug : bool) (code : string)
    (now : datetime) (c : CommitOutcome)
    : (bool * string * option string) * User :=
  match OTPService.generate_otp_for_user user "verification" code now c with
  | (inr e, user') =>
      ((false, "Verification initiation failed: " ++ e, None), user')
  | (inl otp_code, user') =>
      let success_messages :=
        ((if PyStr.mem verification_type ["phone"; "both"] then
            if fst (OTPService.send_otp_sms debug)
            then ["OTP sent to phone"] else []
          else [])
         ++ (if PyStr.mem verification_type ["email"; "both"] then
               if fst (OTPService.send_verification_email debug)
               then ["OTP sent to email"] else []
             else []))%list in
      match success_messages with
      | _ :: _ =>
          ((true, PyStr.join "; " success_messages, Some otp_code), user')
      | [] => ((false, "Failed to send verification code", None), user')
      end
  end.

(** [UserService.verify_user_account(user, otp_code, verification_type)],
    at time [now]. [c1] is the commit inside [clear_user_otp], which also
    writes the flags and the status; [c2] is the commit that follows it. *)
Definition verify_user_account (user : User) (otp_code : string)
    (verification_type : string) (now : datetime) (c1 c2 : CommitOutcome)
    : (bool * string) * User :=
  match OTPService.verify_user_otp user otp_code 10 now with
  | (false, message) => ((false, message), user)
  | (true, _) =>
      let u1 :=
        if PyStr.mem verification_type ["email"; "both"]
        then with_email_verified true user else user in
      let u2 :=
        if PyStr.mem verification_type ["phone"; "both"]
        then with_phone_verified true u1 else u1 in
      let u3 :=
        if u_email_verified u2 && u_phone_verified u2
        then with_status ACTIVE u2 else u2 in
      match OTPService.clear_user_otp u3 c1 with
      | (Some e, _) => ((false, "Verification failed: " ++ e), user)
      | (None, u4) =>
          match c2 with
          | Committed => ((true, "Account verified successfully"), u4)
          | CommitRaises e => ((false, "Verification failed: " ++ e), u4)
          end
      end
  end.

End Verification.

(* ------------------------------------------------------------------ *)
(** ** Handlers of the same files that the sections above leave out *)

Module Dict.

(** [d[k] = v] on a dictionary: an existing key keeps its place. *)
Fixpoint set (d : Payload) (k : string) (v : JValue) : Payload :=
  match d with
  | [] => [(k, v)]
  | (k', v') :: rest =>
      if k' =? k then (k', v) :: rest else (k', v') :: set rest k v
  end.

End Dict.

(** Responses whose [data] member has a shape of its own. *)
Record Reply (D : Type) : Type := mkReply {
  p_success : bool;
  p_message : string;
  p_data : option D;
  p_errors : option (list string);
  p_timestamp : datetime;
  p_status_code : Z
}.

Arguments mkReply {D}.
Arguments p_success {D}.
Arguments p_message {D}.
Arguments p_data {D}.
Arguments p_errors {D}.
Arguments p_timestamp {D}.
Arguments p_status_code {D}.

Module Replies.

(** [success_response] and [error_response] for such responses. *)
Definition success {D : Type} (message : string) (data : option D)
    (status_code : Z) (now : datetime) : Reply D :=
  mkReply true message data None now status_code.

Definition error {D : Type} (message : string)
    (errors : option (list string)) (status_code : Z) (now : datetime)
    : Reply D :=
  mkReply false message None errors now status_code.

(** What the [handle_db_error] decorator answers when the handler raised an
    exception with text [e]. *)
Definition db_error {D : Type} (e : string) (now : datetime) : Reply D :=
  error "Database operation failed" (Some [e]) 500 now.

End Replies.

(** The [data] of [POST /animals]: [{'animal': animal.to_dict()}]. *)
Inductive CreatedAnimal : Type :=
| AnimalEntry (a : Animal).

Module MoreAnimalsApi.

Import Http.

(** [POST /animals], behind [auth_required] and [handle_db_error]. *)
Definition create_animal (L : Library) (db : DB) (current_user : User)
    (data : option Payload) (new_id : string) (now : datetime)
    (c : CommitOutcome) : Reply CreatedAnimal * DB :=
  let proceed (farmer_id : string) :=
    match data with
    | Some ((_ :: _) as d) =>
        match AnimalService.create_animal L db d farmer_id new_id c with
        | ((Some animal, _), db') =>
            (Replies.success "Animal registered successfully"
               (Some (AnimalEntry animal)) 201 now, db')
        | ((None, error_msg), db') =>
            (Replies.error (text error_msg) None 400 now, db')
        end
    | _ => (Replies.error "No data provided" None 400 now, db)
    end in
  match u_user_type current_user with
  | FARMER => proceed (u_id current_user)
  | ADMIN =>
      match data with
      | None =>
          (* data.get on None raises AttributeError *)
          (Replies.db_error "'NoneType' object has no attribute 'get'" now,
           db)
      | Some d =>
          match Json.get_truthy d "farmer_id" with
          | None =>
              (Replies.error "farmer_id is required for admin users" None
                 400 now, db)
          | Some farmer_id => proceed farmer_id
          end
      end
  | VETERINARIAN =>
      (Replies.error "Only farmers and admins can create animals" None 403
         now, db)
  end.

(** [POST /animals/<animal_id>/health-records], behind [auth_required] and
    [handle_db_error]. *)
Definition create_health_record (L : Library) (db : DB)
    (current_user : User) (animal_id : string) (data : option Payload)
    (new_id : string) (today : date) (now : datetime) (c : CommitOutcome)
    : Response * DB :=
  if negb (Enum.role_eqb (u_user_type current_user) VETERINARIAN
           || Enum.role_eqb (u_user_type current_user) ADMIN) then
    (error_response "Only veterinarians and admins can create health records"
       None 403 now, db)
  else
    match Store.get_animal db animal_id with
    | None => (error_response "Animal not found" None 404 now, db)
    | Some animal =>
        if Enum.role_eqb (u_user_type current_user) VETERINARIAN
           && negb (match a_veterinarian_id animal with
                    | Some v => v
                    | None => "None"
                    end =? u_id current_user) then
          (error_response "Access denied. Animal not assigned to you" None
             403 now, db)
        else
          match data with
          | Some ((_ :: _) as d) =>
              let d := Dict.set d "animal_id" (JStr animal_id) in
              match AnimalService.create_health_record L db d
                      (u_id current_user) new_id today c with
              | ((Some health_record, _), db') =>
                  (success_response "Health record created successfully"
                     (Some (DHealthRecord health_record)) 201 now, db')
              | ((None, error_msg), db') =>
                  (error_response (text error_msg) None 400 now, db')
              end
          | _ => (error_response "No data provided" None 400 now, db)
          end
    end.

End MoreAnimalsApi.

Module MoreUsersApi.

Import Http.

(** [DELETE /users/<user_id>], behind [admin_required]. *)
Definition delete_user (db : DB) (current_user : User) (user_id : string)
    (now : datetime) (c : CommitOutcome) : Response * DB :=
  match Store.get_user db user_id with
  | None => (error_response "User not found" None 404 now, db)
  | Some user =>
      if Enum.role_eqb (u_user_type user) ADMIN
         && negb (u_id user =? u_id current_user) then
        (error_response "Cannot delete other admin users" None 403 now, db)
      else
        match UserService.deactivate_user user (Some "Deleted by admin") c
        with
        | ((true, _), user') =>
            (success_response "User deleted successfully" None 200 now,
             Store.put_user user_id user' db)
        | ((false, message), _) =>
            (error_response message None 500 now, db)
        end
  end.

Definition delete_user_endpoint (db : DB) (identity user_id : string)
    (now : datetime) (c : CommitOutcome) : Response * DB :=
  Decorators.admin_required db identity now db
    (fun current_user => delete_user db current_user user_id now c).

End MoreUsersApi.

Module MoreAuthRoutes.

Import Http.

(** Write back the user fetched by [find_active_by_email (users db) e]. *)
Definition put_by_email (e : string) (u' : User) (db : DB) : DB :=
  Store.set_users
    (Store.replace_first (fun u => (u_email u =? e) && u_is_active u) u'
       (users db))
    db.

(** [POST /verify-otp], behind [handle_db_error]. [c1] is the commit of
    [verify_user_account], whose result the handler does not read, and
    [c2] the commit of [clear_otp]. *)
Definition verify_otp_endpoint (db : DB) (data : option Payload)
    (now : datetime) (c1 c2 : CommitOutcome) : Response * DB :=
  match data with
  | Some ((_ :: _) as d) =>
      let '(valid, missing) :=
        Helpers.validate_required_fields d ["email"; "otp"] in
      if negb valid then
        (error_response "Missing required fields" (Some missing) 400 now, db)
      else
        let email := PyStr.strip (PyStr.lower (Json.item d "email")) in
        let provided_otp := PyStr.strip (Json.item d "otp") in
        match AuthUtils.find_active_by_email (users db) email with
        | None => (error_response "User not found" None 404 now, db)
        | Some user =>
            match AuthUtils.verify_otp user provided_otp
                    AuthUtils.DEFAULT_VALIDITY_MINUTES now with
            | (false, message) =>
                (error_response message None 400 now, db)
            | (true, _) =>
                let verification_type :=
                  match Json.get d "type" with
                  | Some v => Json.str v
                  | None => "both"
                  end in
                let user1 :=
                  snd (AuthUtils.verify_user_account user verification_type
                         c1) in
                match Verification.clear_otp user1 c2 with
                | (Some e, _) =>
                    (error_response "Database operation failed" (Some [e])
                       500 now, put_by_email email user1 db)
                | (None, user2) =>
                    (success_response "Account verified successfully" None
                       200 now, put_by_email email user2 db)
                end
            end
        end
  | _ => (error_response "No data provided" None 400 now, db)
  end.

Section ResetPassword.

(** werkzeug's [generate_password_hash], which [User.set_password] calls. *)
Variable generate_password_hash : string -> string.




End ResetPassword.

End MoreAuthRoutes.

(* ------------------------------------------------------------------ *)
(** ** Summaries and listings (app/services/animal_service.py,
       app/api/animals.py, app/models/animal.py) *)

Module EnumValue.

(** [species.value], [health_status.value], [production_status.value]. *)
Definition species_value (s : AnimalSpecies) : string :=
  match s with
  | CATTLE => "cattle" | BUFFALO => "buffalo" | GOAT => "goat"
  | SHEEP => "sheep" | POULTRY => "poultry" | SWINE => "swine"
  | OTHER => "other"
  end.

Definition health_value (h : HealthStatus) : string :=
  match h with
  | HEALTHY => "healthy" | SICK => "sick"
  | UNDER_TREATMENT => "under_treatment" | RECOVERING => "recovering"
  | QUARANTINE => "quarantine" | DECEASED => "deceased"
  end.

Definition production_value (p : ProductionStatus) : string :=
  match p with
  | P_ACTIVE => "active" | DRY => "dry" | PREGNANT => "pregnant"
  | LACTATING => "lactating" | BREEDING => "breeding" | RETIRED => "retired"
  end.

Definition species_eqb (a b : AnimalSpecies) : bool :=
  species_value a =? species_value b.

Definition health_eqb (a b : HealthStatus) : bool :=
  health_value a =? health_value b.

(** [Animal.needs_attention()]. *)
Definition needs_attention (a : Animal) : bool :=
  match a_health_status a with
  | SICK | UNDER_TREATMENT | QUARANTINE => true
  | _ => false
  end.

End EnumValue.

Record Summary : Type := mkSummary {
  total_animals : Z;
  species_breakdown : list (string * Z);
  health_status_breakdown : list (string * Z);
  production_status_breakdown : list (string * Z);
  healthy_animals : Z;
  animals_needing_attention : Z
}.

Module Summaries.

(** A dictionary of counters in insertion order. [count d k] is
    [d.get(k, 0)] and [bump k d] is [d[k] = d.get(k, 0) + 1]. *)
Fixpoint count (d : list (string * Z)) (k : string) : Z :=
  match d with
  | [] => 0
  | (k', n) :: rest => if k' =? k then n else count rest k
  end.

Fixpoint bump (k : string) (d : list (string * Z)) : list (string * Z) :=
  match d with
  | [] => [(k, 1)]
  | (k', n) :: rest =>
      if k' =? k then (k', n + 1) :: rest else (k', n) :: bump k rest
  end.

(** [Animal.query.filter_by(farmer_id=i, is_active=True).all()]. *)
Definition farmer_animals (db : DB) (farmer_id : string) : list Animal :=
  filter (fun a => (a_farmer_id a =? farmer_id) && a_is_active a)
    (animals db).

(** [AnimalService.get_farmer_animals_summary(farmer_id)]. *)
Definition get_farmer_animals_summary (db : DB) (farmer_id : string)
    : option Summary * option string :=
  match Store.get_farmer db farmer_id with
  | None => (None, Some "Farmer not found")
  | Some farmer =>
      let rows := farmer_animals db farmer_id in
      let species_count :=
        fold_left (fun d a => bump (EnumValue.species_value (a_species a)) d)
          rows [] in
      let health_status_count :=
        fold_left
          (fun d a => bump (EnumValue.health_value (a_health_status a)) d)
          rows [] in
      let production_status_count :=
        fold_left
          (fun d a =>
             match a_production_status a with
             | Some p => bump (EnumValue.production_value p) d
             | None => d
             end)
          rows [] in
      (Some {| total_animals := Z.of_nat (List.length rows);
               species_breakdown := species_count;
               health_status_breakdown := health_status_count;
               production_status_breakdown := production_status_count;
               healthy_animals := count health_status_count "healthy";
               animals_needing_attention :=
                 count health_status_count "sick"
                 + count health_status_count "under_treatment"
                 + count health_status_count "quarantine" |},
       None)
  end.

End Summaries.

Module Listing.

Section WithDatabaseFunctions.

(** Two functions of the database: [column ILIKE pattern], and the rows of
    a query in the order of [created_at] descending. *)
Variable ilike : string -> string -> bool.
Variable order_by_created_desc : list Animal -> list Animal.

(** The [name] column, which may be NULL. *)
Definition name_of (a : Animal) : option string :=
  match Json.get (a_attrs a) "name" with
  | Some (JStr s) => Some s
  | _ => None
  end.

(** [request.args.get(k)] used as a condition and then as a text. *)
Definition given (arg : option string) : option string :=
  match arg with
  | Some s => if PyStr.truthy s then Some s else None
  | None => None
  end.

(** [GET /animals], behind [auth_required]. [page] and [per_page] are the
    query arguments of those names, 1 and 20 when absent. [None] is the
    [ZeroDivisionError] that [paginate_query] raises out of the handler. *)
Definition list_animals (db : DB) (current_user : User) (page per_page : Z)
    (species health_status search farmer_id : option string)
    (now : datetime) : option (Reply (Pagination Animal)) :=
  let query :=
    match u_user_type current_user with
    | FARMER =>
        filter (fun a => (a_farmer_id a =? u_id current_user)
                         && a_is_active a) (animals db)
    | VETERINARIAN =>
        filter (fun a => match a_veterinarian_id a with
                         | Some v => v =? u_id current_user
                         | None => false
                         end && a_is_active a) (animals db)
    | ADMIN =>
        let query := filter a_is_active (animals db) in
        match given farmer_id with
        | Some f => filter (fun a => a_farmer_id a =? f) query
        | None => query
        end
    end in
  let filtered (q : list Animal) : Reply (Pagination Animal) + list Animal :=
    match given species with
    | Some s =>
        match Enum.species_of_value (PyStr.lower s) with
        | Some species_enum =>
            inr (filter (fun a => EnumValue.species_eqb (a_species a)
                                    species_enum) q)
        | None => inl (Replies.error "Invalid species" None 400 now)
        end
    | None => inr q
    end in
  match filtered query with
  | inl reply => Some reply
  | inr query =>
      let filtered (q : list Animal)
          : Reply (Pagination Animal) + list Animal :=
        match given health_status with
        | Some s =>
            match Enum.health_of_value (PyStr.lower s) with
            | Some health_enum =>
                inr (filter (fun a => EnumValue.health_eqb
                                        (a_health_status a) health_enum) q)
            | None => inl (Replies.error "Invalid health status" None 400 now)
            end
        | None => inr q
        end in
      match filtered query with
      | inl reply => Some reply
      | inr query =>
          let query :=
            match given search with
            | Some term =>
                let search_term := "%" ++ term ++ "%" in
                filter (fun a => ilike (a_tag_id a) search_term
                                 || match name_of a with
                                    | Some n => ilike n search_term
                                    | None => false
                                    end) query
            | None => query
            end in
          let query := order_by_created_desc query in
          match Paging.paginate_query query page per_page
                  Paging.DEFAULT_MAX_PER_PAGE with
          | None => None
          | Some pagination =>
              Some (Replies.success "Animals retrieved successfully"
                      (Some pagination) 200 now)
          end
      end
  end.

End WithDatabaseFunctions.

End Listing.

(* ------------------------------------------------------------------ *)
(** ** More sample data for the concrete evaluations *)

Module MoreSample.

(** A store of an administrator and [holder], who holds the code 123456
    issued at time 0. *)
Definition db_with_code (holder : User) : DB :=
  {| users := [{| u_id := "admin"; u_name := "admin";
                  u_email := "admin@x.com"; u_phone := "9876543210";
                  u_password_hash := "Abcd1234!"; u_user_type := ADMIN;
                  u_status := ACTIVE; u_email_verified := true;
                  u_phone_verified := true; u_otp_code := None;
                  u_otp_created_at := None; u_is_active := true;
                  u_deleted_at := None |};
               UserModel.with_otp (Some "123456") (Some 0) holder];
     animals := [];
     health_records := [] |}.

Definition pending_farmer : User :=
  {| u_id := "f3"; u_name := "f3"; u_email := "f3@x.com";
     u_phone := "9876543210"; u_password_hash := "Abcd1234!";
     u_user_type := FARMER; u_status := PENDING;
     u_email_verified := false; u_phone_verified := false;
     u_otp_code := None; u_otp_created_at := None;
     u_is_active := true; u_deleted_at := None |}.


Definition verify_body : option Payload :=
  Some [("email", JStr "f3@x.com"); ("otp", JStr "123456")].



End MoreSample.
(* ================================================================== *)
(** * Properties *)

(** ** Sample data used by the concrete evaluations *)

Module Sample.

(** A library instance: the stored hash is the password itself and no
    string parses as a date. *)
Definition lib : Library :=
  {| check_password_hash := String.eqb;
     strptime_ymd := fun _ => None |}.

Definition user (i : string) (role : UserRole) (st : UserStatus)
    (verified : bool) : User :=
  {| u_id := i; u_name := i; u_email := i ++ "@x.com";
     u_phone := "9876543210"; u_password_hash := "Abcd1234!";
     u_user_type := role; u_status := st;
     u_email_verified := verified; u_phone_verified := verified;
     u_otp_code := None; u_otp_created_at := None;
     u_is_active := true; u_deleted_at := None |}.

Definition with_code (code : string) (t : datetime) (u : User) : User :=
  UserModel.with_otp (Some code) (Some t) u.

Definition animal (i tag farmer : string) (vet : option string)
    (active : bool) : Animal :=
  {| a_id := i; a_tag_id := tag; a_species := CATTLE; a_gender := FEMALE;
     a_health_status := HEALTHY; a_production_status := None;
     a_farmer_id := farmer; a_veterinarian_id := vet;
     a_birth_date := None; a_purchase_date := None;
     a_last_checkup_date := None; a_attrs := [];
     a_is_active := active; a_deleted_at := None |}.

Definition admin : User := user "admin" ADMIN ACTIVE true.
Definition f1 : User := user "f1" FARMER ACTIVE true.
Definition f2 : User := user "f2" FARMER ACTIVE true.
Definition v1 : User := user "v1" VETERINARIAN ACTIVE true.
Definition v2 : User := user "v2" VETERINARIAN SUSPENDED true.
Definition newcomer : User := user "f3" FARMER PENDING false.

Definition cow1 : Animal := animal "a1" "COW001" "f1" (Some "v1") true.
Definition cow2 : Animal := animal "a2" "COW002" "f1" None false.

Definition db : DB :=
  {| users := [admin; f1; f2; v1; v2; newcomer];
     animals := [cow1; cow2];
     health_records := [] |}.

End Sample.

(** The account invariant: an active status comes with both channels
    verified. *)
Definition active_implies_verified (u : User) : Prop :=
  u_status u = ACTIVE ->
  u_email_verified u = true /\ u_phone_verified u = true.

(** Case analysis on the next test of a service body. *)
Ltac next_case :=
  match goal with
  | |- context [match ?x with _ => _ end] =>
      lazymatch x with
      | context [match _ with _ => _ end] => fail
      | _ => destruct x eqn:?
      end
  end.

(* ------------------------------------------------------------------ *)
(** ** Shared lemmas *)

Section ListFacts.

Context {A : Type}.
Variable p : A -> bool.

Lemma find_replace_first (x x' : A) (l : list A) :
  find p l = Some x -> p x' = true ->
  find p (Store.replace_first p x' l) = Some x'.
Proof.
  induction l as [|y l IH]; simpl; intros Hf Hp.
  - discriminate.
  - destruct (p y) eqn:Hy; simpl.
    + now rewrite Hp.
    + rewrite Hy. now apply IH.
Qed.

Lemma find_none_all (l : list A) :
  find p l = None <-> forall x, In x l -> p x = false.
Proof.
  split.
  - intros H x Hx. exact (find_none p l H x Hx).
  - induction l as [|y l IH]; simpl; intros H; [reflexivity|].
    rewrite (H y (or_introl eq_refl)). apply IH.
    intros x Hx. apply H. now right.
Qed.

End ListFacts.


Lemma status_value_active (s : UserStatus) :
  (Enum.status_value s =? "active") = true <-> s = ACTIVE.
Proof. destruct s; simpl; split; congruence. Qed.


Lemma verify_user_account_keeps_invariant (u : User) (ty : string)
    (c : CommitOutcome) :
  active_implies_verified u ->
  active_implies_verified (snd (AuthUtils.verify_user_account u ty c)).
Proof.
  unfold AuthUtils.verify_user_account, active_implies_verified.
  intros Hinv. destruct c; cbn [snd]; [|exact Hinv].
  destruct (PyStr.mem ty ["email"; "both"]),
           (PyStr.mem ty ["phone"; "both"]);
    destruct u as [i n e ph pw ro st ev pv oc ot ia da]; cbn in *;
    destruct ev, pv; cbn; intros Hs; auto;
    destruct (Hinv Hs); congruence.
Qed.

(* ------------------------------------------------------------------ *)
(** ** One-time codes *)

(** C4, counterexample. A code issued at time 0 and presented exactly ten
    minutes later, with the right value, is not older than the window
    ([now - issued_at > window] is false), yet the signup check answers
    that it has expired. *)
Lemma verify_otp_expired_at_window_end :
  let user := Sample.with_code "123456" 0 Sample.newcomer in
  let now := timedelta_minutes 10 in
  ~ (now - 0 > timedelta_minutes AuthUtils.DEFAULT_VALIDITY_MINUTES)
  /\ AuthRoutes.verify_signup_code user "123456" now
     = (false, "OTP has expired").
Proof.
  cbv zeta. split.
  - unfold AuthUtils.DEFAULT_VALIDITY_MINUTES, timedelta_minutes. lia.
  - reflexivity.
Qed.

(** C4 (amended). [verify_otp] answers "No OTP found for this user" when no
    code or no issue time is stored, "Invalid OTP" when the stored code
    differs from the one provided, "OTP has expired" when the code matches
    and [now - issued_at >= validity window] (so also at the very end of the
    window), and succeeds when the code matches and
    [now - issued_at < validity window]. The signup check uses a window of
    10 minutes and the password-reset check one of 30 minutes. *)
Theorem verify_otp_outcomes (user : User) (provided_otp : string)
    (validity_minutes : Z) (now : datetime) :
  (u_otp_code user = None \/ u_otp_code user = Some ""
   \/ u_otp_created_at user = None ->
   AuthUtils.verify_otp user provided_otp validity_minutes now
   = (false, "No OTP found for this user"))
  /\ (forall (code : string) (issued_at : datetime),
        u_otp_code user = Some code -> code <> "" ->
        u_otp_created_at user = Some issued_at ->
        (code <> provided_otp ->
         AuthUtils.verify_otp user provided_otp validity_minutes now
         = (false, "Invalid OTP"))
        /\ (code = provided_otp ->
            now - issued_at >= timedelta_minutes validity_minutes ->
            AuthUtils.verify_otp user provided_otp validity_minutes now
            = (false, "OTP has expired"))
        /\ (code = provided_otp ->
            now - issued_at < timedelta_minutes validity_minutes ->
            AuthUtils.verify_otp user provided_otp validity_minutes now
            = (true, "OTP verified successfully")))
  /\ AuthRoutes.verify_signup_code user provided_otp now
     = AuthUtils.verify_otp user provided_otp 10 now
  /\ AuthRoutes.verify_reset_code user provided_otp now
     = AuthUtils.verify_otp user provided_otp 30 now.
Proof.
  split; [|split; [|split; reflexivity]].
  - unfold AuthUtils.verify_otp, AuthUtils.otp_absent.
    intros [H | [H | H]]; rewrite H; try reflexivity.
    + destruct (u_otp_created_at user); reflexivity.
    + destruct (u_otp_code user); reflexivity.
  - intros code issued_at Hcode Hnonempty Hat.
    unfold AuthUtils.verify_otp, AuthUtils.otp_absent, PyStr.truthy,
      Helpers.is_otp_valid.
    rewrite Hcode, Hat.
    apply String.eqb_neq in Hnonempty. rewrite Hnonempty. cbn [negb].
    split; [|split].
    + intros Hne. apply String.eqb_neq in Hne. now rewrite Hne.
    + intros Heq Hold. apply String.eqb_eq in Heq. rewrite Heq. cbn [negb].
      replace (now <? issued_at + timedelta_minutes validity_minutes)%Z
        with false by (symmetry; apply Z.ltb_ge; lia).
      reflexivity.
    + intros Heq Hfresh. apply String.eqb_eq in Heq. rewrite Heq.
      cbn [negb].
      replace (now <? issued_at + timedelta_minutes validity_minutes)%Z
        with true by (symmetry; apply Z.ltb_lt; lia).
      reflexivity.
Qed.

(** Witness for C4: the four outcomes on stored code "123456" issued at
    time 0, with the ten-minute window. *)
Lemma verify_otp_outcomes_witness :
  let user := Sample.with_code "123456" 0 Sample.newcomer in
  AuthUtils.verify_otp Sample.newcomer "123456" 10 5
  = (false, "No OTP found for this user")
  /\ AuthUtils.verify_otp user "000000" 10 5 = (false, "Invalid OTP")
  /\ AuthUtils.verify_otp user "123456" 10 600000000
     = (false, "OTP has expired")
  /\ AuthUtils.verify_otp user "123456" 10 599999999
     = (true, "OTP verified successfully").
Proof.
  cbv zeta.
  pose proof (verify_otp_outcomes Sample.newcomer "123456" 10 5) as [Hnone _].
  pose proof (verify_otp_outcomes
                (Sample.with_code "123456" 0 Sample.newcomer)
                "000000" 10 5) as [_ [Hbad _]].
  pose proof (verify_otp_outcomes
                (Sample.with_code "123456" 0 Sample.newcomer)
                "123456" 10 600000000) as [_ [Hold _]].
  pose proof (verify_otp_outcomes
                (Sample.with_code "123456" 0 Sample.newcomer)
                "123456" 10 599999999) as [_ [Hnew _]].
  split; [|split; [|split]].
  - apply Hnone. left. reflexivity.
  - apply (Hbad "123456" 0); [reflexivity | discriminate | reflexivity
                             | discriminate].
  - apply (Hold "123456" 0); [reflexivity | discriminate | reflexivity
                             | reflexivity | ].
    unfold timedelta_minutes. lia.
  - apply (Hnew "123456" 0); [reflexivity | discriminate | reflexivity
                             | reflexivity | ].
    unfold timedelta_minutes. lia.
Defined.

(* ------------------------------------------------------------------ *)
(** ** Login *)



(* ------------------------------------------------------------------ *)
(** ** Reactivation *)

(** C10. When its commit succeeds, [reactivate_user] reports success, marks
    the user active in the table sense, leaves the two verification flags
    as they were, and sets the status to Active if both flags are true and
    to Pending otherwise; so the user it returns is never Active without
    being verified on both channels. When the commit fails the user is
    returned as given. *)
Theorem reactivate_user_restores_status (user : User) :
  fst (UserService.reactivate_user user Committed)
  = (true, "User account reactivated")
  /\ u_is_active (snd (UserService.reactivate_user user Committed)) = true
  /\ u_email_verified (snd (UserService.reactivate_user user Committed))
     = u_email_verified user
  /\ u_phone_verified (snd (UserService.reactivate_user user Committed))
     = u_phone_verified user
  /\ (u_email_verified user = true /\ u_phone_verified user = true ->
      u_status (snd (UserService.reactivate_user user Committed)) = ACTIVE)
  /\ (~ (u_email_verified user = true /\ u_phone_verified user = true) ->
      u_status (snd (UserService.reactivate_user user Committed)) = PENDING)
  /\ active_implies_verified
       (snd (UserService.reactivate_user user Committed))
  /\ (forall msg,
        snd (UserService.reactivate_user user (CommitRaises msg)) = user).
Proof.
  unfold UserService.reactivate_user, UserModel.is_verified,
    active_implies_verified.
  destruct user as [i n e ph pw ro st ev pv oc ot ia da]; cbn.
  destruct ev, pv; cbn; repeat split; intros;
    try reflexivity; try discriminate; try tauto;
    try (exfalso; intuition congruence).
Qed.

(** Witness for C10: a deactivated user who never verified comes back as
    Pending, a verified one as Active. *)
Lemma reactivate_user_restores_status_witness :
  u_status (snd (UserService.reactivate_user
                   (snd (UserService.deactivate_user Sample.newcomer None
                           Committed))
                   Committed)) = PENDING
  /\ u_status (snd (UserService.reactivate_user
                      (snd (UserService.deactivate_user Sample.f1 None
                              Committed))
                      Committed)) = ACTIVE.
Proof.
  split.
  - apply (reactivate_user_restores_status
             (snd (UserService.deactivate_user Sample.newcomer None
                     Committed))).
    cbn. intros [H _]. discriminate H.
  - apply (reactivate_user_restores_status
             (snd (UserService.deactivate_user Sample.f1 None Committed))).
    cbn. split; reflexivity.
Defined.

(* ------------------------------------------------------------------ *)
(** ** The administrator's status update *)

(** C1, evaluation at the failing input. An administrator sends
    [{"status": "active"}] for a user who registered and verified neither
    channel: the request succeeds and the stored user is Active with both
    verification flags false. *)
Lemma update_user_status_activates_unverified :
  let request := Some [("status", JStr "active")] in
  let result :=
    UsersApi.update_user_status_endpoint Sample.db "admin" "f3" request 7
      Committed in
  Store.get_user Sample.db "f3" = Some Sample.newcomer
  /\ u_status Sample.newcomer = PENDING
  /\ r_success (fst result) = true
  /\ r_status_code (fst result) = 200
  /\ Store.get_user (snd result) "f3"
     = Some (UserModel.with_status ACTIVE Sample.newcomer)
  /\ u_email_verified (UserModel.with_status ACTIVE Sample.newcomer) = false
  /\ u_phone_verified (UserModel.with_status ACTIVE Sample.newcomer) = false
  /\ ~ active_implies_verified
         (UserModel.with_status ACTIVE Sample.newcomer).
Proof.
  cbv zeta. repeat (split; [reflexivity|]).
  unfold active_implies_verified. cbn. intros H.
  destruct (H eq_refl) as [H1 _]. discriminate H1.
Qed.

(* ------------------------------------------------------------------ *)
(** ** Deactivation *)

(** C5, counterexample. Animal "a2" is stored and already inactive;
    deactivating it again does not return a success outcome: the service
    returns no animal with "Animal not found", and the owner's DELETE
    request is answered 404. *)
Lemma deactivate_inactive_animal_not_found :
  In Sample.cow2 (animals Sample.db)
  /\ a_id Sample.cow2 = "a2"
  /\ a_is_active Sample.cow2 = false
  /\ AnimalService.deactivate_animal Sample.db "a2" None None 9 Committed
     = ((None, Some "Animal not found"), Sample.db)
  /\ r_success (fst (AnimalsApi.delete_animal Sample.db Sample.f1 "a2" 9
                       Committed)) = false
  /\ r_status_code (fst (AnimalsApi.delete_animal Sample.db Sample.f1 "a2" 9
                           Committed)) = 404.
Proof.
  repeat split; try reflexivity. cbn. tauto.
Qed.

(** C5 (amended). Deactivating an animal whose rows of that id are all
    inactive already returns the failure "Animal not found" and leaves the
    store as it was. [deactivate_user] on a user who is already inactive
    (status Inactive, [is_active] false) returns success and the same user;
    and for any user, a second [deactivate_user] after a first returns
    success and changes nothing more. *)
Theorem deactivate_again (db : DB) (animal_id : string)
    (reason by_user : option string) (now : datetime) (c : CommitOutcome)
    (user : User) (why why' : option string) :
  ((forall a, In a (animals db) -> a_id a = animal_id ->
              a_is_active a = false) ->
   AnimalService.deactivate_animal db animal_id reason by_user now c
   = ((None, Some "Animal not found"), db))
  /\ (u_status user = INACTIVE -> u_is_active user = false ->
      UserService.deactivate_user user why Committed
      = ((true, "User account deactivated"), user))
  /\ UserService.deactivate_user
       (snd (UserService.deactivate_user user why Committed)) why' Committed
     = ((true, "User account deactivated"),
        snd (UserService.deactivate_user user why Committed)).
Proof.
  split; [|split].
  - intros Hall. unfold AnimalService.deactivate_animal, Store.get_animal.
    replace (find (Store.animal_active_id animal_id) (animals db))
      with (@None Animal); [reflexivity|].
    symmetry. apply find_none_all. intros a Ha.
    unfold Store.animal_active_id.
    destruct (a_id a =? animal_id) eqn:Hid; [|reflexivity].
    apply String.eqb_eq in Hid. rewrite (Hall a Ha Hid). reflexivity.
  - intros Hs Ha. unfold UserService.deactivate_user.
    destruct user as [i n e ph pw ro st ev pv oc ot ia da]; cbn in *.
    now subst.
  - reflexivity.
Qed.

(** Witness for C5: the inactive animal "a2", and a user deactivated once
    before. *)
Lemma deactivate_again_witness :
  AnimalService.deactivate_animal Sample.db "a2" None None 9 Committed
  = ((None, Some "Animal not found"), Sample.db)
  /\ UserService.deactivate_user
       (snd (UserService.deactivate_user Sample.f2 None Committed))
       None Committed
     = ((true, "User account deactivated"),
        snd (UserService.deactivate_user Sample.f2 None Committed)).
Proof.
  split.
  - apply (deactivate_again Sample.db "a2" None None 9 Committed
             Sample.f2 None None).
    cbn. intros a [H | [H | []]] Hid; subst a; [discriminate Hid|].
    reflexivity.
  - apply (proj1 (proj2 (deactivate_again Sample.db "a2" None None 9
                           Committed
                           (snd (UserService.deactivate_user Sample.f2 None
                                   Committed))
                           None None)));
      reflexivity.
Defined.

(* ------------------------------------------------------------------ *)
(** ** Farmers and other farmers' animals *)

Section ForeignAnimal.

Variable db : DB.
Variable farmer : User.
Variable animal_id : string.
Variable animal : Animal.

Hypothesis actor_is_farmer : u_user_type farmer = FARMER.
Hypothesis animal_stored : Store.get_animal db animal_id = Some animal.
Hypothesis other_owner : a_farmer_id animal <> u_id farmer.

Local Abbreviation denied now :=
  (Http.error_response "Access denied" None 403 now) (only parsing).

(** C2. A farmer who asks for an animal that belongs to another farmer is
    answered 403 "Access denied" by the read handlers (the animal and its
    health records) and by the update, delete and assign-veterinarian
    handlers, whatever the request body, the commit outcome or the services
    behind the handlers; the three writing handlers return the store
    unchanged (the reading handlers have no store to return). *)
Theorem farmer_denied_on_foreign_animal
    (update_svc : DB -> string -> Payload -> string -> CommitOutcome ->
                  (option Animal * option string) * DB)
    (history_svc : DB -> string -> Z ->
                   option (list HealthRecord) * option string)
    (data : option Payload) (limit : Z) (now : datetime)
    (c : CommitOutcome) :
  AnimalsApi.get_animal db farmer animal_id now = denied now
  /\ AnimalsApi.get_animal_health_records history_svc db farmer animal_id
       limit now = denied now
  /\ AnimalsApi.update_animal update_svc db farmer animal_id data now c
     = (denied now, db)
  /\ AnimalsApi.delete_animal db farmer animal_id now c = (denied now, db)
  /\ AnimalsApi.assign_veterinarian db farmer animal_id data now c
     = (denied now, db).
Proof.
  apply String.eqb_neq in other_owner.
  unfold AnimalsApi.get_animal, AnimalsApi.get_animal_health_records,
    AnimalsApi.update_animal, AnimalsApi.delete_animal,
    AnimalsApi.assign_veterinarian.
  rewrite animal_stored, actor_is_farmer, other_owner.
  repeat split.
Qed.

End ForeignAnimal.

(** Witness for C2: farmer "f2" and the animal "a1" of farmer "f1". *)
Lemma farmer_denied_on_foreign_animal_witness :
  r_status_code (AnimalsApi.get_animal Sample.db Sample.f2 "a1" 3) = 403
  /\ AnimalsApi.delete_animal Sample.db Sample.f2 "a1" 3 Committed
     = (Http.error_response "Access denied" None 403 3, Sample.db)
  /\ AnimalsApi.assign_veterinarian Sample.db Sample.f2 "a1"
       (Some [("veterinarian_id", JStr "v1")]) 3 Committed
     = (Http.error_response "Access denied" None 403 3, Sample.db).
Proof.
  pose proof (farmer_denied_on_foreign_animal Sample.db Sample.f2 "a1"
                Sample.cow1 eq_refl eq_refl
                ltac:(discriminate)
                (fun d _ _ _ _ => ((None, Some "No valid fields to update"), d))
                (fun d _ _ => (Some (health_records d), None))
                (Some [("veterinarian_id", JStr "v1")]) 10 3 Committed)
    as [Hget [_ [_ [Hdel Hassign]]]].
  split; [|split].
  - rewrite Hget. reflexivity.
  - exact Hdel.
  - exact Hassign.
Defined.

(* ------------------------------------------------------------------ *)
(** ** Assigning a veterinarian *)

Lemma put_animal_get (db : DB) (i : string) (a a' : Animal) :
  Store.get_animal db i = Some a ->
  a_id a' = a_id a -> a_is_active a' = a_is_active a ->
  Store.get_animal (Store.put_animal i a' db) i = Some a'.
Proof.
  unfold Store.get_animal, Store.put_animal, Store.set_animals. cbn.
  intros Hget Hid Hact.
  apply (find_replace_first _ a); [exact Hget|].
  apply find_some in Hget. destruct Hget as [_ Hp].
  unfold Store.animal_active_id in *. now rewrite Hid, Hact.
Qed.

Lemma put_animal_tables (db : DB) (i : string) (a' : Animal) :
  users (Store.put_animal i a' db) = users db
  /\ health_records (Store.put_animal i a' db) = health_records db.
Proof. split; reflexivity. Qed.

(** C8. [assign_veterinarian] returns "Animal not found" when no active
    animal has the id, "Veterinarian not found" when no active veterinarian
    has the id, "Veterinarian is not active" when that veterinarian's
    status is not Active, and in these cases, as after a failed commit, the
    store is unchanged. Otherwise, when the commit succeeds, it returns the
    animal with [veterinarian_id] set to the given id and stores it. A
    successful assignment therefore always names a veterinarian whose
    status is Active. *)
Theorem assign_veterinarian_outcomes (db : DB) (animal_id vet_id by_user : string)
    (c : CommitOutcome) :
  (Store.get_animal db animal_id = None ->
   AnimalService.assign_veterinarian db animal_id vet_id by_user c
   = ((None, Some "Animal not found"), db))
  /\ (forall animal,
        Store.get_animal db animal_id = Some animal ->
        Store.get_veterinarian db vet_id = None ->
        AnimalService.assign_veterinarian db animal_id vet_id by_user c
        = ((None, Some "Veterinarian not found"), db))
  /\ (forall animal vet,
        Store.get_animal db animal_id = Some animal ->
        Store.get_veterinarian db vet_id = Some vet ->
        u_status vet <> ACTIVE ->
        AnimalService.assign_veterinarian db animal_id vet_id by_user c
        = ((None, Some "Veterinarian is not active"), db))
  /\ (forall animal vet,
        Store.get_animal db animal_id = Some animal ->
        Store.get_veterinarian db vet_id = Some vet ->
        u_status vet = ACTIVE ->
        exists animal' db',
          AnimalService.assign_veterinarian db animal_id vet_id by_user
            Committed = ((Some animal', None), db')
          /\ a_veterinarian_id animal' = Some vet_id
          /\ a_farmer_id animal' = a_farmer_id animal
          /\ Store.get_animal db' animal_id = Some animal')
  /\ (forall animal' db',
        AnimalService.assign_veterinarian db animal_id vet_id by_user c
        = ((Some animal', None), db') ->
        exists vet,
          Store.get_veterinarian db vet_id = Some vet
          /\ u_status vet = ACTIVE /\ u_is_active vet = true
          /\ u_user_type vet = VETERINARIAN)
  /\ (fst (fst (AnimalService.assign_veterinarian db animal_id vet_id
                  by_user c)) = None ->
      snd (AnimalService.assign_veterinarian db animal_id vet_id by_user c)
      = db).
Proof.
  unfold AnimalService.assign_veterinarian, AnimalService.outcome,
    Early.bind, Early.found, Early.require, Early.ret, Early.stop.
  repeat match goal with |- _ /\ _ => split end.
  - intros ->. reflexivity.
  - intros animal -> ->. reflexivity.
  - intros animal vet -> -> Hst.
    destruct (Enum.status_value (u_status vet) =? "active") eqn:Hv;
      [|reflexivity].
    apply status_value_active in Hv. contradiction.
  - intros animal vet Ha Hv Hst. rewrite Ha, Hv, Hst. cbn.
    eexists. eexists. split; [reflexivity|].
    split; [reflexivity|]. split; [reflexivity|].
    now apply (put_animal_get db animal_id animal).
  - intros animal' db'.
    destruct (Store.get_animal db animal_id) as [animal|];
      [|discriminate].
    destruct (Store.get_veterinarian db vet_id) as [vet|] eqn:Hv;
      [|discriminate].
    destruct (Enum.status_value (u_status vet) =? "active") eqn:Hs;
      [|discriminate].
    intros _. exists vet. apply status_value_active in Hs.
    unfold Store.get_veterinarian in Hv. apply find_some in Hv.
    destruct Hv as [_ Hp]. unfold Store.role_active_id in Hp.
    apply andb_true_iff in Hp. destruct Hp as [Hp Hact].
    apply andb_true_iff in Hp. destruct Hp as [Hrole _].
    repeat split; auto.
    destruct (u_user_type vet); cbn in Hrole; congruence.
  - destruct (Store.get_animal db animal_id) as [animal|];
      [|reflexivity].
    destruct (Store.get_veterinarian db vet_id) as [vet|];
      [|reflexivity].
    destruct (Enum.status_value (u_status vet) =? "active");
      [|reflexivity].
    destruct c; [discriminate|reflexivity].
Qed.

(** Witness for C8: on the sample store, animal "a1" is assigned to the
    active veterinarian "v1"; the suspended "v2" and the unknown "v9" are
    refused. *)
Lemma assign_veterinarian_outcomes_witness :
  AnimalService.assign_veterinarian Sample.db "a1" "v2" "f1" Committed
  = ((None, Some "Veterinarian is not active"), Sample.db)
  /\ AnimalService.assign_veterinarian Sample.db "a1" "v9" "f1" Committed
     = ((None, Some "Veterinarian not found"), Sample.db)
  /\ AnimalService.assign_veterinarian Sample.db "a2" "v1" "f1" Committed
     = ((None, Some "Animal not found"), Sample.db)
  /\ exists animal' db',
       AnimalService.assign_veterinarian Sample.db "a1" "v1" "f1" Committed
       = ((Some animal', None), db')
       /\ a_veterinarian_id animal' = Some "v1"
       /\ a_farmer_id animal' = a_farmer_id Sample.cow1
       /\ Store.get_animal db' "a1" = Some animal'.
Proof.
  split; [|split; [|split]].
  - apply (proj1 (proj2 (proj2 (assign_veterinarian_outcomes Sample.db "a1"
                                  "v2" "f1" Committed)))
             Sample.cow1 Sample.v2);
      [reflexivity | reflexivity | discriminate].
  - apply (proj1 (proj2 (assign_veterinarian_outcomes Sample.db "a1" "v9"
                           "f1" Committed)) Sample.cow1);
      reflexivity.
  - apply (proj1 (assign_veterinarian_outcomes Sample.db "a2" "v1" "f1"
                    Committed)).
    reflexivity.
  - apply (proj1 (proj2 (proj2 (proj2
             (assign_veterinarian_outcomes Sample.db "a1" "v1" "f1"
                Committed)))) Sample.cow1 Sample.v1);
      reflexivity.
Defined.

(* ------------------------------------------------------------------ *)
(** ** Health records *)

Section HealthRecordCreation.

Variable L : Library.
Variable db : DB.
Variable data : Payload.
Variables recorded_by new_id : string.
Variable today : date.

Local Abbreviation run c :=
  (AnimalService.create_health_record L db data recorded_by new_id today c)
  (only parsing).

(** What a successful call has done. *)
Lemma create_health_record_success (c : CommitOutcome)
    (record : HealthRecord) (db' : DB) :
  run c = ((Some record, None), db') ->
  c = Committed
  /\ health_records db' = (health_records db ++ [record])%list
  /\ hr_animal_id record = Json.item data "animal_id"
  /\ hr_recorded_by_id record = recorded_by
  /\ exists animal,
       Store.get_animal db (hr_animal_id record) = Some animal
       /\ match Json.get_truthy data "overall_condition" with
          | None =>
              hr_overall_condition record = None /\ animals db' = animals db
          | Some s =>
              exists h,
                Enum.health_of_value (PyStr.lower s) = Some h
                /\ hr_overall_condition record = Some h
                /\ db' = Store.put_animal (hr_animal_id record)
                           (AnimalModel.with_last_checkup_date
                              (Some (hr_checkup_date record))
                              (AnimalModel.with_health_status h animal))
                           (mkDB (users db) (animals db)
                              (health_records db ++ [record])%list)
          end.
Proof.
  unfold AnimalService.create_health_record, AnimalService.outcome,
    Helpers.validate_required_fields, Early.optional, Early.bind,
    Early.found, Early.require, Early.ret, Early.stop.
  cbv zeta.
  repeat (next_case; try discriminate).
  all: intros H; inversion H; subst; clear H; cbn.
  all: repeat split; try reflexivity.
  all: eexists; split; [eassumption|]; try (split; reflexivity).
  all: eexists; repeat split; reflexivity.
Qed.

(** A call that returns no record has left the store as it was. *)
Lemma create_health_record_failure (c : CommitOutcome) :
  fst (fst (run c)) = None -> snd (run c) = db.
Proof.
  unfold AnimalService.create_health_record, AnimalService.outcome.
  match goal with
  | |- context [match ?r with inl _ => _ | inr _ => _ end] =>
      destruct r as [msg | [record db']]
  end; cbn; [reflexivity | discriminate].
Qed.

(** C3. Let the request carry a non-empty [overall_condition]. If
    [create_health_record] returns a record, then the commit succeeded,
    the record is in the stored table, its condition is the parsed
    [overall_condition], and the stored animal it refers to has that
    condition as [health_status] and the record's checkup date as
    [last_checkup_date]: one commit carries both writes. If the call
    returns no record, for a failed check or a failed commit, the store
    is unchanged: neither the record nor the animal update is there. The
    call does return a record when the animal id is given and names an
    active animal, the optional dates and the condition parse, and the
    commit succeeds. *)
Theorem create_health_record_atomic (c : CommitOutcome) (s : string) :
  Json.get_truthy data "overall_condition" = Some s ->
  (forall record db',
     run c = ((Some record, None), db') ->
     c = Committed
     /\ In record (health_records db')
     /\ exists h animal',
          Enum.health_of_value (PyStr.lower s) = Some h
          /\ hr_overall_condition record = Some h
          /\ Store.get_animal db' (hr_animal_id record) = Some animal'
          /\ a_health_status animal' = h
          /\ a_last_checkup_date animal' = Some (hr_checkup_date record))
  /\ (fst (fst (run c)) = None ->
      snd (run c) = db)
  /\ (forall animal h,
        Helpers.field_missing data "animal_id" = false ->
        Store.get_animal db (Json.item data "animal_id")
        = Some animal ->
        (forall d, Json.get_truthy data "checkup_date" = Some d ->
                   strptime_ymd L d <> None) ->
        (forall d, Json.get_truthy data "next_checkup_date" = Some d ->
                   strptime_ymd L d <> None) ->
        Enum.health_of_value (PyStr.lower s) = Some h ->
        exists record db',
          run Committed = ((Some record, None), db')).
Proof.
  intros Hcond. split; [|split].
  - intros record db' Hrun.
    destruct (create_health_record_success c record db' Hrun)
      as (Hc & Hrecs & _ & _ & animal & Hget & Hupd).
    rewrite Hcond in Hupd. destruct Hupd as (h & Hparse & Hrc & Hdb).
    split; [exact Hc|]. split.
    + rewrite Hrecs. apply in_or_app. right. now left.
    + exists h. eexists. split; [exact Hparse|]. split; [exact Hrc|].
      split; [|split].
      * rewrite Hdb. apply (put_animal_get _ _ animal); [exact Hget| |];
          reflexivity.
      * reflexivity.
      * reflexivity.
  - apply create_health_record_failure.
  - intros animal h Hid Hget Hd1 Hd2 Hparse.
    unfold AnimalService.create_health_record,
      AnimalService.outcome, Helpers.validate_required_fields,
      Early.optional, Early.bind, Early.found, Early.require, Early.ret.
    cbn [filter]. rewrite Hid. cbn [List.length Nat.eqb].
    rewrite Hget, Hcond, Hparse.
    destruct (Json.get_truthy data "checkup_date") as [d1|] eqn:E1.
    + destruct (strptime_ymd L d1) eqn:P1;
        [|exfalso; exact (Hd1 d1 eq_refl P1)].
      destruct (Json.get_truthy data "next_checkup_date") as [d2|] eqn:E2.
      * destruct (strptime_ymd L d2) eqn:P2;
          [|exfalso; exact (Hd2 d2 eq_refl P2)].
        eexists. eexists. reflexivity.
      * eexists. eexists. reflexivity.
    + destruct (Json.get_truthy data "next_checkup_date") as [d2|] eqn:E2.
      * destruct (strptime_ymd L d2) eqn:P2;
          [|exfalso; exact (Hd2 d2 eq_refl P2)].
        eexists. eexists. reflexivity.
      * eexists. eexists. reflexivity.
Qed.

End HealthRecordCreation.

(** Witness for C3: veterinarian "v1" records a checkup of animal "a1" with
    condition "Sick" on day 100; the record is stored and the animal reads
    Sick with last checkup on day 100. *)
Lemma create_health_record_atomic_witness :
  let data := [("animal_id", JStr "a1"); ("overall_condition", JStr "Sick")] in
  exists record db',
    AnimalService.create_health_record Sample.lib Sample.db data "v1" "h1"
      100 Committed = ((Some record, None), db')
    /\ In record (health_records db')
    /\ exists animal',
         Store.get_animal db' "a1" = Some animal'
         /\ a_health_status animal' = SICK
         /\ a_last_checkup_date animal' = Some 100.
Proof.
  cbv zeta.
  pose proof (create_health_record_atomic Sample.lib Sample.db
                [("animal_id", JStr "a1"); ("overall_condition", JStr "Sick")]
                "v1" "h1" 100 Committed "Sick" eq_refl)
    as (Hok & _ & Hlive).
  destruct (Hlive Sample.cow1 SICK eq_refl eq_refl
              ltac:(intros d Hd; discriminate Hd)
              ltac:(intros d Hd; discriminate Hd) eq_refl)
    as (record & db' & Hrun).
  exists record, db'. split; [exact Hrun|].
  destruct (Hok record db' Hrun)
    as (_ & Hin & h & animal' & Hparse & Hrc & Hget & Hh & Hd).
  split; [exact Hin|].
  assert (Hrec : hr_animal_id record = "a1" /\ hr_checkup_date record = 100)
    by (vm_compute in Hrun; inversion Hrun; split; reflexivity).
  destruct Hrec as [Hid Hdate]. rewrite Hid in Hget. rewrite Hdate in Hd.
  vm_compute in Hparse. injection Hparse as Hsick.
  exists animal'. split; [exact Hget | split; [congruence | exact Hd]].
Defined.

(* ------------------------------------------------------------------ *)
(** ** Password-reset requests *)

(** C6, evaluation at the failing input. Outside debug mode, a reset request
    for the address of the active user "f1" and one for an address nobody
    holds are both answered with success and status 200, but with different
    messages, and only the first carries a [data] member; so the two
    responses differ. The second request stores no code; the first one
    does. *)
Lemma forgot_password_responses_differ :
  let known := Some [("email", JStr "f1@x.com")] in
  let unknown := Some [("email", JStr "nobody@x.com")] in
  let r1 := AuthRoutes.forgot_password Sample.db known false "424242" 11
              Committed in
  let r2 := AuthRoutes.forgot_password Sample.db unknown false "424242" 11
              Committed in
  AuthUtils.find_active_by_email (users Sample.db) "f1@x.com"
  = Some Sample.f1
  /\ AuthUtils.find_active_by_email (users Sample.db) "nobody@x.com" = None
  /\ r_success (fst r1) = true /\ r_status_code (fst r1) = 200
  /\ r_success (fst r2) = true /\ r_status_code (fst r2) = 200
  /\ r_message (fst r1) = "Password reset code sent"
  /\ r_message (fst r2) = "If the email exists, a reset code has been sent"
  /\ r_data (fst r1)
     = Some (DDict [("message", "Password reset code sent to your email")])
  /\ r_data (fst r2) = None
  /\ fst r1 <> fst r2
  /\ snd r2 = Sample.db
  /\ AuthUtils.find_active_by_email (users (snd r1)) "f1@x.com"
     = Some (Sample.with_code "424242" 11 Sample.f1).
Proof.
  cbv zeta. repeat (split; [reflexivity|]).
  split; [|split; reflexivity].
  intros H. apply (f_equal r_message) in H. discriminate H.
Qed.

(* ------------------------------------------------------------------ *)
(** ** Animal tags *)

(** Creating an animal with the tag of one of the same farmer's active
    animals is refused with the duplicate message, once the required
    fields, the farmer, the species and the gender have passed. *)
Lemma create_animal_duplicate_for_farmer (L : Library) (db : DB)
    (animal_data : Payload) (farmer_id new_id : string) (c : CommitOutcome)
    (farmer : User) (sp : AnimalSpecies) (g : Gender) (existing : Animal) :
  fst (Helpers.validate_required_fields animal_data
         ["tag_id"; "species"; "gender"]) = true ->
  Store.get_farmer db farmer_id = Some farmer ->
  Enum.species_of_value (PyStr.lower (Json.item animal_data "species"))
  = Some sp ->
  Enum.gender_of_value (PyStr.lower (Json.item animal_data "gender"))
  = Some g ->
  In existing (animals db) ->
  a_tag_id existing = Json.item animal_data "tag_id" ->
  a_farmer_id existing = farmer_id ->
  a_is_active existing = true ->
  AnimalService.create_animal L db animal_data farmer_id new_id c
  = ((None,
      Some "An animal with this tag ID already exists for this farmer"),
     db).
Proof.
  intros Hvalid Hfarmer Hsp Hg Hin Htag Hown Hact.
  unfold AnimalService.create_animal, AnimalService.new_animal,
    AnimalService.outcome, Early.bind, Early.found, Early.require.
  destruct (Helpers.validate_required_fields animal_data
              ["tag_id"; "species"; "gender"]) as [valid missing].
  cbn in Hvalid. subst valid. rewrite Hfarmer, Hsp, Hg.
  match goal with
  | |- context [find ?p (animals db)] =>
      destruct (find p (animals db)) eqn:Hfind
  end; [reflexivity|].
  exfalso. apply find_none_all with (x := existing) in Hfind; [|exact Hin].
  rewrite Htag, Hown, Hact, !String.eqb_refl in Hfind. discriminate Hfind.
Qed.

(** C7, evaluation at the failing input. Farmer "f1" owns the active animal
    tagged "COW001". When farmer "f2" registers an animal with that tag, the
    per-farmer check passes but the commit is refused by the table's
    uniqueness constraint on [tag_id]: the call returns no animal and the
    store is unchanged. (The same request by "f1" gets the duplicate
    message, and "f2" succeeds with a tag nobody holds.) *)
Lemma create_animal_same_tag_other_farmer :
  let request (tag : string) :=
    [("tag_id", JStr tag); ("species", JStr "cattle");
     ("gender", JStr "female")] in
  a_tag_id Sample.cow1 = "COW001" /\ a_farmer_id Sample.cow1 = "f1"
  /\ Store.get_farmer Sample.db "f2" = Some Sample.f2
  /\ AnimalService.create_animal Sample.lib Sample.db (request "COW001")
       "f2" "a3" Committed
     = ((None,
         Some "Failed to create animal: IntegrityError: UNIQUE constraint failed: animals.tag_id"),
        Sample.db)
  /\ AnimalService.create_animal Sample.lib Sample.db (request "COW001")
       "f1" "a3" Committed
     = ((None,
         Some "An animal with this tag ID already exists for this farmer"),
        Sample.db)
  /\ exists animal db',
       AnimalService.create_animal Sample.lib Sample.db (request "COW009")
         "f2" "a3" Committed = ((Some animal, None), db')
       /\ a_tag_id animal = "COW009" /\ a_farmer_id animal = "f2".
Proof.
  cbv zeta. repeat (split; [reflexivity|]).
  eexists. eexists. split; [reflexivity|]. split; reflexivity.
Qed.

(* ================================================================== *)
(** * Further properties of the code *)

(* ------------------------------------------------------------------ *)
(** ** Strings as lists of characters *)

Section TextFacts.

Import PyText.

Lemma of_chars_chars (s : string) : of_chars (chars s) = s.
Proof. induction s as [|c s IH]; cbn; [reflexivity | now rewrite IH]. Qed.

Lemma chars_of_chars (l : list ascii) : chars (of_chars l) = l.
Proof. induction l as [|c l IH]; cbn; [reflexivity | now rewrite IH]. Qed.

Lemma length_chars (s : string) : String.length s = List.length (chars s).
Proof. induction s as [|c s IH]; cbn; [reflexivity | now rewrite IH]. Qed.

Lemma length_of_chars (l : list ascii) :
  String.length (of_chars l) = List.length l.
Proof. now rewrite length_chars, chars_of_chars. Qed.


Lemma chars_inj (a b : string) : chars a = chars b -> a = b.
Proof.
  intros H. rewrite <- (of_chars_chars a), <- (of_chars_chars b).
  now rewrite H.
Qed.

Lemma all_keep (p : ascii -> bool) (s : string) : all p (keep p s) = true.
Proof.
  unfold all, keep. rewrite chars_of_chars. apply forallb_forall.
  intros c Hc. apply filter_In in Hc. tauto.
Qed.

Lemma keep_all (p : ascii -> bool) (s : string) :
  all p s = true -> keep p s = s.
Proof.
  unfold all, keep. intros H. rewrite <- (of_chars_chars s) at 2.
  f_equal. apply forallb_filter_id. exact H.
Qed.

Lemma length_keep (p : ascii -> bool) (s : string) :
  (String.length (keep p s) <= String.length s)%nat.
Proof.
  unfold keep. rewrite length_of_chars, length_chars. apply filter_length_le.
Qed.

Lemma all_drop (p : ascii -> bool) (n : nat) (s : string) :
  all p s = true -> all p (drop n s) = true.
Proof.
  unfold all, drop. rewrite chars_of_chars, !forallb_forall.
  intros H c Hc. apply H. rewrite <- (firstn_skipn n (chars s)).
  apply in_or_app. now right.
Qed.

Lemma all_take (p : ascii -> bool) (n : nat) (s : string) :
  all p s = true -> all p (take n s) = true.
Proof.
  unfold all, take. rewrite chars_of_chars, !forallb_forall.
  intros H c Hc. apply H. rewrite <- (firstn_skipn n (chars s)).
  apply in_or_app. now left.
Qed.

Lemma length_drop (n : nat) (s : string) :
  String.length (drop n s) = (String.length s - n)%nat.
Proof.
  unfold drop. now rewrite length_of_chars, length_skipn, length_chars.
Qed.


Lemma digit_not_newline (c : ascii) :
  is_digit c = true -> c <> ascii_of_nat 10.
Proof. intros H ->. discriminate H. Qed.


End TextFacts.

(* ------------------------------------------------------------------ *)
(** ** Phone numbers *)

Section PhoneFacts.

Import PyText.




(** The four ways [format_phone_number] ends on a non-empty text. *)
Lemma format_phone_number_cases (phone r : string) :
  Validators.format_phone_number phone = Some r ->
  let ds := keep is_digit phone in
  phone <> ""
  /\ ((String.length ds = 10%nat /\ r = ds)
      \/ (String.length ds = 13%nat /\ startswith "91" ds = true
          /\ r = drop 2 ds)
      \/ (String.length ds = 12%nat /\ startswith "0" ds = true
          /\ r = drop 1 ds)
      \/ (String.length ds <> 10%nat
          /\ (String.length ds = 13%nat -> startswith "91" ds = false)
          /\ (String.length ds = 12%nat -> startswith "0" ds = false)
          /\ r = ds)).
Proof.
  unfold Validators.format_phone_number, PyStr.truthy. cbv zeta.
  destruct (phone =? "") eqn:He; cbn [negb]; [discriminate|].
  apply String.eqb_neq in He.
  destruct (Nat.eqb (String.length (keep is_digit phone)) 10) eqn:H10.
  { apply Nat.eqb_eq in H10. intros H. injection H as <-.
    split; [exact He|]. left. split; [exact H10 | reflexivity]. }
  apply Nat.eqb_neq in H10.
  destruct (Nat.eqb (String.length (keep is_digit phone)) 13) eqn:H13;
    cbn [andb].
  { apply Nat.eqb_eq in H13.
    destruct (startswith "91" (keep is_digit phone)) eqn:Hp.
    - intros H. injection H as <-. split; [exact He|].
      right. left. auto.
    - rewrite H13. cbn [Nat.eqb andb]. intros H. injection H as <-.
      split; [exact He|]. right. right. right.
      repeat split; auto; intros; try lia; try discriminate. }
  apply Nat.eqb_neq in H13.
  destruct (Nat.eqb (String.length (keep is_digit phone)) 12) eqn:H12;
    cbn [andb].
  { apply Nat.eqb_eq in H12.
    destruct (startswith "0" (keep is_digit phone)) eqn:Hp.
    - intros H. injection H as <-. split; [exact He|].
      right. right. left. auto.
    - intros H. injection H as <-. split; [exact He|].
      right. right. right.
      repeat split; auto; intros; try lia; try discriminate. }
  apply Nat.eqb_neq in H12.
  intros H. injection H as <-. split; [exact He|].
  right. right. right.
  repeat split; auto; intros; try lia; try discriminate.
Qed.

End PhoneFacts.

(** A formatted number consists of digits and is no longer than the text
    it was made from. *)
Lemma format_phone_number_result (phone r : string) :
  Validators.format_phone_number phone = Some r ->
  PyText.all PyText.is_digit r = true
  /\ (String.length r <= String.length phone)%nat.
Proof.
  intros Hr. apply format_phone_number_cases in Hr.
  destruct Hr as [_ Hr].
  pose proof (all_keep PyText.is_digit phone) as Hall.
  pose proof (length_keep PyText.is_digit phone) as Hlen.
  destruct Hr as [[_ ->] | [(_ & _ & ->) | [(_ & _ & ->) | (_ & _ & _ & ->)]]];
    (split; [auto using all_drop | rewrite ?length_drop; lia]).
Qed.





(** X3. Formatting is idempotent on its non-empty results: formatting a
    formatted number again changes nothing. *)
Theorem format_phone_number_idempotent (phone r : string) :
  Validators.format_phone_number phone = Some r ->
  r <> "" ->
  Validators.format_phone_number r = Some r.
Proof.
  intros Hr Hne.
  pose proof (format_phone_number_result phone r Hr) as [Hall _].
  apply format_phone_number_cases in Hr. cbv zeta in Hr.
  destruct Hr as [_ Hr].
  unfold Validators.format_phone_number, PyStr.truthy.
  apply String.eqb_neq in Hne. rewrite Hne. cbn [negb].
  rewrite (keep_all _ _ Hall).
  destruct Hr as [[H10 ->] | [(H13 & _ & ->) | [(H12 & _ & ->) | (Hn & Ha & Hb & ->)]]].
  - now rewrite H10.
  - rewrite length_drop, H13. reflexivity.
  - rewrite length_drop, H12. reflexivity.
  - apply Nat.eqb_neq in Hn. rewrite Hn.
    destruct (Nat.eqb (String.length (PyText.keep PyText.is_digit phone)) 13)
      eqn:E13.
    + apply Nat.eqb_eq in E13. rewrite (Ha E13). cbn [andb].
      rewrite E13. reflexivity.
    + cbn [andb].
      destruct (Nat.eqb (String.length (PyText.keep PyText.is_digit phone)) 12)
        eqn:E12; [|reflexivity].
      apply Nat.eqb_eq in E12. now rewrite (Hb E12).
Qed.

(** Witness for X3. *)
Lemma format_phone_number_idempotent_witness :
  Validators.format_phone_number "0919876543210" = Some "0919876543210".
Proof.
  apply (format_phone_number_idempotent "09-1987-6543210" "0919876543210");
    [reflexivity | discriminate].
Defined.

(* ------------------------------------------------------------------ *)
(** ** Passwords, Aadhar numbers and sanitized text *)

Section ValidatorFacts.

Import PyText.









End ValidatorFacts.







(* ------------------------------------------------------------------ *)
(** ** Pagination *)

Section PagingFacts.

Context {A : Type}.

Lemma chunks_cover (pp n : nat) (l : list A) :
  (0 < pp)%nat -> (List.length l <= n * pp)%nat ->
  flat_map (fun k => firstn pp (skipn (k * pp) l)) (seq 0 n) = l.
Proof.
  intros Hpp. revert l. induction n as [|n IH]; intros l Hlen.
  - destruct l; [reflexivity | cbn in Hlen; lia].
  - cbn [seq flat_map]. rewrite <- seq_shift.
    rewrite flat_map_concat_map, map_map, <- flat_map_concat_map.
    rewrite (flat_map_ext _ (fun k => firstn pp (skipn (k * pp) (skipn pp l)))).
    + rewrite IH.
      * cbn [Nat.mul skipn]. apply firstn_skipn.
      * rewrite length_skipn. lia.
    + intros k. rewrite skipn_skipn. f_equal. f_equal. lia.
Qed.

Variable query : list A.
Variables page per_page max_per_page : Z.
Hypothesis page_pos : 1 <= page.
Hypothesis per_page_pos : 1 <= per_page.
Hypothesis max_pos : 1 <= max_per_page.

Local Abbreviation pp := (Z.min per_page max_per_page) (only parsing).
Local Abbreviation total := (Z.of_nat (List.length query)) (only parsing).


Lemma pages_bounds :
  let pages := (total + pp - 1) / pp in
  pp * (pages - 1) < total <= pp * pages /\ 0 <= pages.
Proof.
  cbv zeta.
  assert (Hpp : 1 <= Z.min per_page max_per_page) by lia.
  pose proof (Z.div_mod (total + Z.min per_page max_per_page - 1)
                (Z.min per_page max_per_page) ltac:(lia)) as Hdm.
  pose proof (Z.mod_pos_bound (total + Z.min per_page max_per_page - 1)
                (Z.min per_page max_per_page) ltac:(lia)) as Hmod.
  assert (0 <= (total + Z.min per_page max_per_page - 1)
               / Z.min per_page max_per_page)
    by (apply Z.div_pos; lia).
  nia.
Qed.



(** X9. For a page size of at least 1, the pages numbered 1 to [pages],
    put one after the other, are the rows of the query: every row is on
    exactly one page, in the query's order. *)
Theorem paginate_query_pages_cover :
  flat_map
    (fun k =>
       match Paging.paginate_query query (Z.of_nat k + 1) per_page
               max_per_page with
       | Some pg => pg_items pg
       | None => []
       end)
    (seq 0 (Z.to_nat ((Z.of_nat (List.length query)
                       + Z.min per_page max_per_page - 1)
                      / Z.min per_page max_per_page)))
  = query.
Proof.
  pose proof pages_bounds as Hb. cbv zeta in Hb.
  rewrite <- (chunks_cover (Z.to_nat (Z.min per_page max_per_page))
                (Z.to_nat ((Z.of_nat (List.length query)
                            + Z.min per_page max_per_page - 1)
                           / Z.min per_page max_per_page)) query) at 2;
    [|lia|nia].
  apply flat_map_ext. intros k.
  unfold Paging.paginate_query, Paging.limit, Paging.offset.
  assert (Hpp : (if (max_per_page <? per_page)%Z then max_per_page
                 else per_page) = Z.min per_page max_per_page).
  { destruct (max_per_page <? per_page)%Z eqn:H;
      [apply Z.ltb_lt in H | apply Z.ltb_ge in H]; lia. }
  rewrite Hpp.
  destruct (Z.min per_page max_per_page =? 0)%Z eqn:Hz;
    [apply Z.eqb_eq in Hz; lia|].
  cbn [pg_items]. f_equal. f_equal. nia.
Qed.

End PagingFacts.



(** Witness for X9: seven rows, three to a page, make three pages. *)
Lemma paginate_query_pages_cover_witness :
  flat_map
    (fun k =>
       match Paging.paginate_query [1; 2; 3; 4; 5; 6; 7] (Z.of_nat k + 1) 3
               100 with
       | Some pg => pg_items pg
       | None => []
       end)
    (seq 0 3)
  = [1; 2; 3; 4; 5; 6; 7].
Proof.
  exact (paginate_query_pages_cover [1; 2; 3; 4; 5; 6; 7] 3 100
           ltac:(lia) ltac:(lia)).
Defined.

(* ------------------------------------------------------------------ *)
(** ** Masking *)

Section MaskingFacts.

Import Masking.

(** Induction over a tree and the trees it holds. *)
Lemma Tree_induction (P : Tree -> Prop) :
  (forall v, P (Leaf v)) ->
  (forall kv, (forall key value, In (key, value) kv -> P value) ->
              P (Dict kv)) ->
  (forall items, (forall item, In item items -> P item) -> P (Arr items)) ->
  forall t, P t.
Proof.
  intros Hleaf Hdict Harr. fix F 1. intros [v | kv | items].
  - apply Hleaf.
  - apply Hdict. induction kv as [|[k v] rest IH]; intros key value Hin.
    + destruct Hin.
    + destruct Hin as [Heq | Hin].
      * injection Heq as _ <-. apply F.
      * exact (IH key value Hin).
  - apply Harr. induction items as [|i rest IH]; intros item Hin.
    + destruct Hin.
    + destruct Hin as [<- | Hin]; [apply F | exact (IH item Hin)].
Qed.

Variable sensitive_fields : list string.

Local Abbreviation mask := (mask_sensitive_data sensitive_fields)
  (only parsing).

(** The entries of a masked dictionary and the items of a masked list. *)
Lemma mask_dict (kv : list (string * Tree)) :
  mask (Dict kv)
  = Dict (map (fun '(key, value) =>
                 (key, if PyStr.mem key sensitive_fields then MASK
                       else mask value)) kv).
Proof.
  cbn. f_equal. induction kv as [|[k v] rest IH]; cbn; [reflexivity|].
  rewrite IH. f_equal. f_equal.
  destruct (PyStr.mem k sensitive_fields); [reflexivity|].
  destruct v; reflexivity.
Qed.

Lemma mask_arr (items : list Tree) :
  mask (Arr items) = Arr (map (fun item => mask item) items).
Proof.
  reflexivity.
Qed.

(** X10. In the result of [mask_sensitive_data], no dictionary at any
    depth, inside lists included, maps a sensitive key to anything but
    the mask text. *)
Theorem mask_sensitive_data_masks (data : Tree) :
  Masked sensitive_fields (mask_sensitive_data sensitive_fields data).
Proof.
  induction data as [v | kv IH | items IH] using Tree_induction.
  - constructor.
  - rewrite mask_dict. constructor.
    + intros key value Hin Hsens. apply in_map_iff in Hin.
      destruct Hin as ([k v] & Heq & _). injection Heq as <- <-.
      now rewrite Hsens.
    + intros key value Hin. apply in_map_iff in Hin.
      destruct Hin as ([k v] & Heq & Hin). injection Heq as <- <-.
      destruct (PyStr.mem k sensitive_fields); [constructor|].
      exact (IH k v Hin).
  - rewrite mask_arr. constructor. intros item Hin.
    apply in_map_iff in Hin. destruct Hin as (i & <- & Hin).
    exact (IH i Hin).
Qed.

(** X11. Masking is idempotent: masking masked data changes nothing. *)
Theorem mask_sensitive_data_idempotent (data : Tree) :
  mask_sensitive_data sensitive_fields
    (mask_sensitive_data sensitive_fields data)
  = mask_sensitive_data sensitive_fields data.
Proof.
  induction data as [v | kv IH | items IH] using Tree_induction.
  - reflexivity.
  - rewrite !mask_dict. f_equal. rewrite map_map.
    apply map_ext_in. intros [k v] Hin.
    destruct (PyStr.mem k sensitive_fields); [reflexivity|].
    f_equal. exact (IH k v Hin).
  - rewrite !mask_arr. f_equal. rewrite map_map.
    apply map_ext_in. intros i Hin. exact (IH i Hin).
Qed.

End MaskingFacts.

(* ------------------------------------------------------------------ *)
(** ** Issuing, checking and clearing codes *)




(** X13. When [is_otp_expired] says so, neither check accepts any code;
    when it does not and a non-empty code is stored, both checks accept
    exactly that code. *)
Theorem expired_code_never_verifies (user : User) (w : Z) (now : datetime) :
  (OTPService.is_otp_expired user w now = true ->
   forall provided,
     fst (OTPService.verify_user_otp user provided w now) = false
     /\ fst (AuthUtils.verify_otp user provided w now) = false)
  /\ (OTPService.is_otp_expired user w now = false ->
      forall code provided,
        u_otp_code user = Some code -> code <> "" ->
        (fst (OTPService.verify_user_otp user provided w now) = true
         <-> provided = code)
        /\ (fst (AuthUtils.verify_otp user provided w now) = true
            <-> provided = code)).
Proof.
  unfold OTPService.is_otp_expired, OTPService.verify_user_otp,
    AuthUtils.verify_otp, AuthUtils.otp_absent, PyStr.truthy.
  split.
  - intros Hexp provided.
    destruct (u_otp_created_at user) as [t|] eqn:Ht.
    + rewrite Hexp.
      destruct (u_otp_code user) as [code|]; [|split; reflexivity].
      destruct (code =? ""); cbn; [split; reflexivity|].
      destruct (code =? provided); cbn; split; reflexivity.
    + destruct (u_otp_code user); split; reflexivity.
  - intros Hexp code provided Hcode Hne.
    destruct (u_otp_created_at user) as [t|] eqn:Ht; [|discriminate].
    apply negb_false_iff in Hexp. rewrite Hexp, Hcode.
    apply String.eqb_neq in Hne. rewrite Hne. cbn.
    destruct (code =? provided) eqn:Hc; cbn.
    + apply String.eqb_eq in Hc. split; split; intros; congruence.
    + apply String.eqb_neq in Hc.
      split; split; intros H; try discriminate; congruence.
Qed.

(** Witness for X13. *)
Lemma expired_code_never_verifies_witness :
  fst (OTPService.verify_user_otp
         (Sample.with_code "123456" 0 Sample.newcomer) "123456" 10
         600000000) = false
  /\ (fst (AuthUtils.verify_otp
             (Sample.with_code "123456" 0 Sample.newcomer) "123456" 10 5)
      = true <-> "123456" = "123456").
Proof.
  split.
  - apply (proj1 (expired_code_never_verifies
                    (Sample.with_code "123456" 0 Sample.newcomer) 10
                    600000000) eq_refl "123456").
  - apply (proj2 (expired_code_never_verifies
                    (Sample.with_code "123456" 0 Sample.newcomer) 10 5)
             eq_refl "123456" "123456" eq_refl).
    discriminate.
Defined.

(** X14. If [UserService.verify_user_account] reports success, the code
    has been erased: the returned user holds no code and no issue time, so
    any later call on it, with any code, is refused with
    "No OTP found for this user" and changes nothing. A channel verified
    before stays verified, and the account invariant is kept. *)
Theorem verify_user_account_once (user user' : User)
    (otp_code verification_type message : string) (now : datetime)
    (c1 c2 : CommitOutcome) :
  Verification.verify_user_account user otp_code verification_type now c1 c2
  = ((true, message), user') ->
  u_otp_code user' = None /\ u_otp_created_at user' = None
  /\ (forall otp' ty' now' d1 d2,
        Verification.verify_user_account user' otp' ty' now' d1 d2
        = ((false, "No OTP found for this user"), user'))
  /\ (u_email_verified user = true -> u_email_verified user' = true)
  /\ (u_phone_verified user = true -> u_phone_verified user' = true)
  /\ (active_implies_verified user -> active_implies_verified user').
Proof.
  unfold Verification.verify_user_account, OTPService.clear_user_otp.
  destruct (OTPService.verify_user_otp user otp_code 10 now) as [[|] m];
    [|discriminate].
  generalize (PyStr.mem verification_type ["email"; "both"]),
             (PyStr.mem verification_type ["phone"; "both"]).
  intros b1 b2.
  destruct c1; [|discriminate]. destruct c2; [|discriminate].
  intros H. injection H as _ <-.
  assert (Hreplay : forall u otp' ty' now' d1 d2,
            u_otp_code u = None ->
            Verification.verify_user_account u otp' ty' now' d1 d2
            = ((false, "No OTP found for this user"), u)).
  { intros u otp' ty' now' d1 d2 Hu.
    unfold Verification.verify_user_account, OTPService.verify_user_otp,
      AuthUtils.otp_absent. now rewrite Hu. }
  split; [reflexivity|]. split; [reflexivity|].
  split; [intros; now apply Hreplay|].
  unfold active_implies_verified.
  destruct b1, b2;
    destruct user as [i n e ph pw ro st ev pv oc ot ia da]; cbn in *;
    destruct ev, pv; cbn;
    repeat split; intros; try reflexivity; try discriminate; auto;
    try (match goal with H : _ -> _ /\ _ |- _ => destruct (H ltac:(assumption)) end; congruence).
Qed.

(** Witness for X14. *)
Lemma verify_user_account_once_witness :
  let user := Sample.with_code "123456" 0 Sample.newcomer in
  let user' := snd (Verification.verify_user_account user "123456" "both" 5
                      Committed Committed) in
  u_otp_code user' = None
  /\ Verification.verify_user_account user' "123456" "both" 6 Committed
       Committed
     = ((false, "No OTP found for this user"), user').
Proof.
  cbv zeta.
  pose proof (verify_user_account_once
                (Sample.with_code "123456" 0 Sample.newcomer)
                (snd (Verification.verify_user_account
                        (Sample.with_code "123456" 0 Sample.newcomer)
                        "123456" "both" 5 Committed Committed))
                "123456" "both" "Account verified successfully" 5
                Committed Committed eq_refl)
    as (Hcode & _ & Hreplay & _).
  split; [exact Hcode | apply Hreplay].
Defined.

(** X15. The verification flow end to end: [initiate_user_verification]
    for both channels stores the drawn code and reports both messages sent;
    [verify_user_account] with that code, less than ten minutes later,
    succeeds and leaves the user Active, verified on both channels, able to
    log in, and without a stored code. *)
Theorem verification_flow_activates (user : User) (debug : bool)
    (code : string) (issued now : datetime) :
  code <> "" ->
  now - issued < timedelta_minutes 10 ->
  fst (Verification.initiate_user_verification user "both" debug code issued
         Committed)
  = (true, "OTP sent to phone; OTP sent to email", Some code)
  /\ fst (Verification.verify_user_account
            (snd (Verification.initiate_user_verification user "both" debug
                    code issued Committed))
            code "both" now Committed Committed)
     = (true, "Account verified successfully")
  /\ UserModel.can_login
       (snd (Verification.verify_user_account
               (snd (Verification.initiate_user_verification user "both"
                       debug code issued Committed))
               code "both" now Committed Committed)) = true
  /\ u_otp_code
       (snd (Verification.verify_user_account
               (snd (Verification.initiate_user_verification user "both"
                       debug code issued Committed))
               code "both" now Committed Committed)) = None.
Proof.
  intros Hne Hfresh. apply String.eqb_neq in Hne.
  assert (Hlt : (now <? issued + 600000000)%Z = true)
    by (apply Z.ltb_lt; unfold timedelta_minutes in Hfresh; lia).
  unfold Verification.initiate_user_verification,
    OTPService.generate_otp_for_user, OTPService.send_otp_sms,
    OTPService.send_verification_email.
  destruct debug; cbn;
    (split; [reflexivity|]);
    unfold Verification.verify_user_account, OTPService.verify_user_otp,
      AuthUtils.otp_absent, PyStr.truthy, Helpers.is_otp_valid; cbn;
    rewrite Hne; cbn; rewrite String.eqb_refl; cbn;
    rewrite Hlt; cbn;
    repeat split; reflexivity.
Qed.

(** Witness for X15. *)
Lemma verification_flow_activates_witness :
  UserModel.can_login
    (snd (Verification.verify_user_account
            (snd (Verification.initiate_user_verification Sample.newcomer
                    "both" false "424242" 0 Committed))
            "424242" "both" 540000000 Committed Committed)) = true.
Proof.
  apply (verification_flow_activates Sample.newcomer false "424242" 0
           540000000);
    [discriminate | unfold timedelta_minutes; lia].
Defined.

(* ------------------------------------------------------------------ *)
(** ** Creating health records through the endpoint *)

Lemma get_set_same (d : Payload) (k : string) (v : JValue) :
  Json.get (Dict.set d k v) k = Some v.
Proof.
  induction d as [|[k' v'] rest IH]; cbn.
  - now rewrite String.eqb_refl.
  - destruct (k' =? k) eqn:Hk; cbn; now rewrite Hk.
Qed.

Lemma role_eqb_eq (a b : UserRole) : Enum.role_eqb a b = true <-> a = b.
Proof. destruct a, b; cbn; split; congruence. Qed.

(** X16. A farmer is always refused by the health-record endpoint, and so
    is a veterinarian for an animal assigned to somebody else or to nobody:
    the answer is 403 and nothing is stored. *)
Theorem create_health_record_denied (L : Library) (db : DB)
    (current_user : User) (animal_id : string) (data : option Payload)
    (new_id : string) (today : date) (now : datetime) (c : CommitOutcome) :
  (u_user_type current_user = FARMER ->
   MoreAnimalsApi.create_health_record L db current_user animal_id data
     new_id today now c
   = (Http.error_response
        "Only veterinarians and admins can create health records" None 403
        now, db))
  /\ (forall animal,
        u_user_type current_user = VETERINARIAN ->
        u_id current_user <> "None" ->
        Store.get_animal db animal_id = Some animal ->
        a_veterinarian_id animal <> Some (u_id current_user) ->
        MoreAnimalsApi.create_health_record L db current_user animal_id data
          new_id today now c
        = (Http.error_response "Access denied. Animal not assigned to you"
             None 403 now, db)).
Proof.
  unfold MoreAnimalsApi.create_health_record. split.
  - intros ->. reflexivity.
  - intros animal -> Hid -> Hvet. cbn.
    destruct (a_veterinarian_id animal) as [v|].
    + destruct (v =? u_id current_user) eqn:Hv; [|reflexivity].
      apply String.eqb_eq in Hv. congruence.
    + destruct ("None" =? u_id current_user) eqn:Hv; [|reflexivity].
      apply String.eqb_eq in Hv. congruence.
Qed.

(** Witness for X16: the farmer "f1", and the veterinarian "v2" on the
    animal assigned to "v1". *)
Lemma create_health_record_denied_witness :
  r_status_code
    (fst (MoreAnimalsApi.create_health_record Sample.lib Sample.db Sample.f1
            "a1" (Some [("overall_condition", JStr "sick")]) "h1" 100 3
            Committed)) = 403
  /\ MoreAnimalsApi.create_health_record Sample.lib Sample.db Sample.v2 "a1"
       (Some [("overall_condition", JStr "sick")]) "h1" 100 3 Committed
     = (Http.error_response "Access denied. Animal not assigned to you" None
          403 3, Sample.db).
Proof.
  pose proof (create_health_record_denied Sample.lib Sample.db Sample.f1 "a1"
                (Some [("overall_condition", JStr "sick")]) "h1" 100 3
                Committed) as [Hf _].
  pose proof (create_health_record_denied Sample.lib Sample.db Sample.v2 "a1"
                (Some [("overall_condition", JStr "sick")]) "h1" 100 3
                Committed) as [_ Hv].
  split.
  - rewrite (Hf eq_refl). reflexivity.
  - apply (Hv Sample.cow1); [reflexivity | discriminate | reflexivity
                            | discriminate].
Defined.

(** X17. When the health-record endpoint answers 201, exactly one record
    has been appended; it belongs to the animal named in the URL, whatever
    [animal_id] the body carried, and is signed by the caller; the caller
    is not a farmer, and a veterinarian caller is the one the animal is
    assigned to. *)
Theorem create_health_record_created (L : Library) (db db' : DB)
    (current_user : User) (animal_id : string) (data : option Payload)
    (new_id : string) (today : date) (now : datetime) (c : CommitOutcome)
    (response : Response) :
  u_id current_user <> "None" ->
  MoreAnimalsApi.create_health_record L db current_user animal_id data
    new_id today now c = (response, db') ->
  r_status_code response = 201 ->
  exists record animal,
    r_data response = Some (DHealthRecord record)
    /\ health_records db' = (health_records db ++ [record])%list
    /\ hr_animal_id record = animal_id
    /\ hr_recorded_by_id record = u_id current_user
    /\ Store.get_animal db animal_id = Some animal
    /\ u_user_type current_user <> FARMER
    /\ (u_user_type current_user = VETERINARIAN ->
        a_veterinarian_id animal = Some (u_id current_user)).
Proof.
  intros Hid. unfold MoreAnimalsApi.create_health_record.
  destruct (negb (Enum.role_eqb (u_user_type current_user) VETERINARIAN
                  || Enum.role_eqb (u_user_type current_user) ADMIN))
    eqn:Hrole.
  { intros H; injection H as <- _. discriminate. }
  destruct (Store.get_animal db animal_id) as [animal|] eqn:Hget.
  2: { intros H; injection H as <- _. discriminate. }
  destruct (Enum.role_eqb (u_user_type current_user) VETERINARIAN
            && negb (match a_veterinarian_id animal with
                     | Some v => v
                     | None => "None"
                     end =? u_id current_user)) eqn:Hassigned.
  { intros H; injection H as <- _. discriminate. }
  destruct data as [[|entry d]|].
  1, 3: intros H; injection H as <- _; discriminate.
  destruct (AnimalService.create_health_record L db
              (Dict.set (entry :: d) "animal_id" (JStr animal_id))
              (u_id current_user) new_id today c)
    as [[[record|] msg] db''] eqn:Hsvc.
  2: { intros H; injection H as <- _. discriminate. }
  intros H _. injection H as <- <-.
  assert (Hmsg : msg = None).
  { unfold AnimalService.create_health_record, AnimalService.outcome in Hsvc.
    match type of Hsvc with
    | match ?r with inl _ => _ | inr _ => _ end = _ =>
        destruct r as [e | [x y]]
    end; [discriminate | now injection Hsvc]. }
  subst msg.
  destruct (create_health_record_success L db _ _ _ _ c record db'' Hsvc)
    as (_ & Hrecs & Haid & Hby & _).
  exists record, animal. split; [reflexivity|]. split; [exact Hrecs|].
  assert (Hitem : Json.item (Dict.set (entry :: d) "animal_id"
                               (JStr animal_id)) "animal_id" = animal_id).
  { unfold Json.item. now rewrite get_set_same. }
  split; [now rewrite Haid, Hitem|]. split; [exact Hby|].
  split; [reflexivity|].
  apply negb_false_iff in Hrole. split.
  - intros Hf. rewrite Hf in Hrole. discriminate Hrole.
  - intros Hv. rewrite Hv in Hassigned. cbn in Hassigned.
    apply negb_false_iff, String.eqb_eq in Hassigned.
    destruct (a_veterinarian_id animal); congruence.
Qed.

(** Witness for X17: veterinarian "v1" posts a record for "a1" with a body
    that names another animal. *)
Lemma create_health_record_created_witness :
  exists record animal,
    r_data (fst (MoreAnimalsApi.create_health_record Sample.lib Sample.db
                   Sample.v1 "a1" (Some [("animal_id", JStr "a2")]) "h1" 100
                   3 Committed)) = Some (DHealthRecord record)
    /\ health_records
         (snd (MoreAnimalsApi.create_health_record Sample.lib Sample.db
                 Sample.v1 "a1" (Some [("animal_id", JStr "a2")]) "h1" 100 3
                 Committed))
       = (health_records Sample.db ++ [record])%list
    /\ hr_animal_id record = "a1"
    /\ hr_recorded_by_id record = u_id Sample.v1
    /\ Store.get_animal Sample.db "a1" = Some animal
    /\ u_user_type Sample.v1 <> FARMER
    /\ (u_user_type Sample.v1 = VETERINARIAN ->
        a_veterinarian_id animal = Some (u_id Sample.v1)).
Proof.
  apply (create_health_record_created Sample.lib Sample.db _ Sample.v1 "a1"
           (Some [("animal_id", JStr "a2")]) "h1" 100 3 Committed);
    [discriminate | apply surjective_pairing | reflexivity].
Defined.

(* ------------------------------------------------------------------ *)
(** ** Creating animals *)

Lemma replace_first_map {A B : Type} (g : A -> B) (p : A -> bool)
    (x x' : A) (l : list A) :
  find p l = Some x -> g x' = g x ->
  map g (Store.replace_first p x' l) = map g l.
Proof.
  induction l as [|y l IH]; cbn; intros Hf Hg; [reflexivity|].
  destruct (p y) eqn:Hy; cbn.
  - injection Hf as ->. now rewrite Hg.
  - now rewrite IH.
Qed.

Lemma find_app_last {A : Type} (p : A -> bool) (l : list A) (x : A) :
  find p l = None -> p x = true -> find p (l ++ [x]) = Some x.
Proof.
  induction l as [|y l IH]; cbn; intros Hn Hp.
  - now rewrite Hp.
  - destruct (p y); [discriminate | now apply IH].
Qed.

Lemma tag_taken_map (db : DB) (tag : string) :
  Store.tag_taken db tag
  = existsb (fun t => t =? tag) (map a_tag_id (animals db)).
Proof.
  unfold Store.tag_taken. induction (animals db) as [|a l IH]; cbn;
    [reflexivity | now rewrite IH].
Qed.

(** What a successful [create_animal] has done. *)
Lemma create_animal_success (L : Library) (db db' : DB)
    (animal_data : Payload) (farmer_id new_id : string) (c : CommitOutcome)
    (animal : Animal) (msg : option string) :
  AnimalService.create_animal L db animal_data farmer_id new_id c
  = ((Some animal, msg), db') ->
  c = Committed /\ msg = None
  /\ db' = Store.set_animals (animals db ++ [animal])%list db
  /\ a_id animal = new_id
  /\ a_farmer_id animal = farmer_id
  /\ a_tag_id animal = PyStr.strip (Json.item animal_data "tag_id")
  /\ a_is_active animal = true
  /\ a_veterinarian_id animal = None
  /\ a_deleted_at animal = None
  /\ Store.tag_taken db (a_tag_id animal) = false
  /\ (Json.get_truthy animal_data "health_status" = None ->
      a_health_status animal = HEALTHY)
  /\ exists farmer, Store.get_farmer db farmer_id = Some farmer.
Proof.
  unfold AnimalService.create_animal, AnimalService.new_animal,
    AnimalService.outcome, Store.commit_new_animal,
    Helpers.validate_required_fields, Early.optional, Early.bind,
    Early.found, Early.require, Early.ret, Early.stop.
  cbv zeta.
  repeat (next_case; try discriminate).
  all: intros H; inversion H; subst; clear H; cbn in *.
  all: repeat (split; [first [reflexivity | assumption | discriminate]|]).
  all: try (split; [intros; first [reflexivity | discriminate]|]).
  all: eexists; reflexivity.
Qed.

(** X18. An animal that [create_animal] returns is stored as the last row
    with the drawn id: it is active, owned by the given farmer, who is an
    active farmer, carries the stripped tag, has no veterinarian, and is
    Healthy unless the request gave a health status. If no stored row had
    that id, the animal is the one its id finds. *)
Theorem create_animal_created (L : Library) (db db' : DB)
    (animal_data : Payload) (farmer_id new_id : string) (c : CommitOutcome)
    (animal : Animal) (msg : option string) :
  AnimalService.create_animal L db animal_data farmer_id new_id c
  = ((Some animal, msg), db') ->
  animals db' = (animals db ++ [animal])%list
  /\ users db' = users db /\ health_records db' = health_records db
  /\ a_id animal = new_id /\ a_farmer_id animal = farmer_id
  /\ a_tag_id animal = PyStr.strip (Json.item animal_data "tag_id")
  /\ a_is_active animal = true /\ a_veterinarian_id animal = None
  /\ (Json.get_truthy animal_data "health_status" = None ->
      a_health_status animal = HEALTHY)
  /\ (exists farmer,
        Store.get_farmer db farmer_id = Some farmer
        /\ u_user_type farmer = FARMER /\ u_is_active farmer = true)
  /\ ((forall a, In a (animals db) -> a_id a <> new_id) ->
      Store.get_animal db' new_id = Some animal).
Proof.
  intros Hrun.
  destruct (create_animal_success _ _ _ _ _ _ _ _ _ Hrun)
    as (_ & _ & -> & Hid & Hown & Htag & Hact & Hvet & _ & _ & Hh
        & farmer & Hfarmer).
  repeat (split; [first [reflexivity | assumption]|]).
  split.
  - exists farmer. split; [exact Hfarmer|].
    unfold Store.get_farmer in Hfarmer. apply find_some in Hfarmer.
    destruct Hfarmer as [_ Hp]. unfold Store.role_active_id in Hp.
    rewrite !andb_true_iff in Hp. destruct Hp as [[Hr _] Ha].
    apply role_eqb_eq in Hr. auto.
  - intros Hfresh. unfold Store.get_animal. cbn.
    assert (Hnone : find (Store.animal_active_id new_id) (animals db) = None).
    { apply find_none_all. intros a Ha. unfold Store.animal_active_id.
      destruct (a_id a =? new_id) eqn:E; [|reflexivity].
      apply String.eqb_eq in E. exfalso. exact (Hfresh a Ha E). }
    apply find_app_last; [exact Hnone|].
    unfold Store.animal_active_id. now rewrite Hid, String.eqb_refl, Hact.
Qed.

(** Witness for X18. *)
Lemma create_animal_created_witness :
  let request :=
    [("tag_id", JStr " COW009 "); ("species", JStr "Cattle");
     ("gender", JStr "female")] in
  exists animal,
    fst (fst (AnimalService.create_animal Sample.lib Sample.db request "f2"
                "a3" Committed)) = Some animal
    /\ a_tag_id animal = "COW009" /\ a_farmer_id animal = "f2"
    /\ a_health_status animal = HEALTHY.
Proof.
  cbv zeta. eexists. split; [reflexivity|].
  pose proof (create_animal_created Sample.lib Sample.db _
                [("tag_id", JStr " COW009 "); ("species", JStr "Cattle");
                 ("gender", JStr "female")] "f2" "a3" Committed _ None
                eq_refl)
    as (_ & _ & _ & _ & Hown & Htag & _ & _ & Hh & _).
  split; [exact Htag|]. split; [exact Hown|]. apply Hh. reflexivity.
Defined.

(** X19. A tag held by any stored animal, active or soft-deleted, is never
    given to a new one: [create_animal] then returns no animal and leaves
    the store as it was. Deactivating an animal does not free its tag, and
    the tags of the stored animals stay pairwise distinct across
    [create_animal]. *)
Theorem tag_never_reused (L : Library) (db : DB) (animal_data : Payload)
    (farmer_id new_id : string) (c : CommitOutcome) :
  (Store.tag_taken db (PyStr.strip (Json.item animal_data "tag_id")) = true ->
   fst (fst (AnimalService.create_animal L db animal_data farmer_id new_id c))
   = None
   /\ snd (AnimalService.create_animal L db animal_data farmer_id new_id c)
      = db)
  /\ (forall tag animal_id reason by_user now c',
        Store.tag_taken db tag = true ->
        Store.tag_taken
          (snd (AnimalService.deactivate_animal db animal_id reason by_user
                  now c')) tag = true)
  /\ (NoDup (map a_tag_id (animals db)) ->
      NoDup (map a_tag_id
               (animals (snd (AnimalService.create_animal L db animal_data
                                farmer_id new_id c))))).
Proof.
  split; [|split].
  - intros Htaken.
    destruct (AnimalService.create_animal L db animal_data farmer_id new_id c)
      as [[[animal|] msg] db'] eqn:Hrun.
    + destruct (create_animal_success _ _ _ _ _ _ _ _ _ Hrun)
        as (_ & _ & _ & _ & _ & Htag & _ & _ & _ & Hfree & _).
      rewrite Htag in Hfree. congruence.
    + split; [reflexivity|].
      unfold AnimalService.create_animal, AnimalService.outcome in Hrun.
      match type of Hrun with
      | match ?r with inl _ => _ | inr _ => _ end = _ =>
          destruct r as [e | [x y]]
      end; [now injection Hrun | discriminate].
  - intros tag animal_id reason by_user now c' Htaken.
    unfold AnimalService.deactivate_animal.
    destruct (Store.get_animal db animal_id) as [animal|] eqn:Hget;
      [|exact Htaken].
    destruct c'; [|exact Htaken]. cbn [snd].
    rewrite tag_taken_map in *. unfold Store.put_animal. cbn [animals Store.set_animals].
    now rewrite (replace_first_map a_tag_id _ animal).
  - intros Hnd.
    destruct (AnimalService.create_animal L db animal_data farmer_id new_id c)
      as [[[animal|] msg] db'] eqn:Hrun; cbn [snd].
    + destruct (create_animal_success _ _ _ _ _ _ _ _ _ Hrun)
        as (_ & _ & -> & _ & _ & _ & _ & _ & _ & Hfree & _).
      cbn. rewrite map_app. cbn.
      apply NoDup_app; [exact Hnd | constructor; [intros [] | constructor] |].
      intros t Hin Hin'. destruct Hin' as [<- | []].
      rewrite tag_taken_map in Hfree.
      assert (existsb (fun t => t =? a_tag_id animal)
                (map a_tag_id (animals db)) = true).
      { apply existsb_exists. exists (a_tag_id animal).
        split; [exact Hin | apply String.eqb_refl]. }
      congruence.
    + unfold AnimalService.create_animal, AnimalService.outcome in Hrun.
      match type of Hrun with
      | match ?r with inl _ => _ | inr _ => _ end = _ =>
          destruct r as [e | [x y]]
      end; [injection Hrun as _ <-; exact Hnd | discriminate].
Qed.

(** Witness for X19: the tag of the deactivated animal "a2" cannot be
    registered again, by its former owner or by anyone else. *)
Lemma tag_never_reused_witness :
  let request :=
    [("tag_id", JStr "COW002"); ("species", JStr "cattle");
     ("gender", JStr "female")] in
  fst (fst (AnimalService.create_animal Sample.lib Sample.db request "f1"
              "a3" Committed)) = None
  /\ snd (AnimalService.create_animal Sample.lib Sample.db request "f1" "a3"
            Committed) = Sample.db.
Proof.
  apply (proj1 (tag_never_reused Sample.lib Sample.db
                  [("tag_id", JStr "COW002"); ("species", JStr "cattle");
                   ("gender", JStr "female")] "f1" "a3" Committed)).
  reflexivity.
Defined.

(** X20. Through [POST /animals] a veterinarian is refused with 403 and
    nothing is stored. When the answer is 201, one animal has been
    appended: for a farmer caller it is owned by the caller, whatever
    [farmer_id] the body carried; for an administrator it is owned by the
    non-empty [farmer_id] of the body. *)
Theorem create_animal_endpoint_owner (L : Library) (db : DB)
    (current_user : User) (data : option Payload) (new_id : string)
    (now : datetime) (c : CommitOutcome) :
  (u_user_type current_user = VETERINARIAN ->
   MoreAnimalsApi.create_animal L db current_user data new_id now c
   = (Replies.error "Only farmers and admins can create animals" None 403
        now, db))
  /\ (forall reply db',
        MoreAnimalsApi.create_animal L db current_user data new_id now c
        = (reply, db') ->
        p_status_code reply = 201 ->
        exists animal,
          p_data reply = Some (AnimalEntry animal)
          /\ animals db' = (animals db ++ [animal])%list
          /\ (u_user_type current_user = FARMER ->
              a_farmer_id animal = u_id current_user)
          /\ (u_user_type current_user = ADMIN ->
              exists d, data = Some d
                        /\ Json.get_truthy d "farmer_id"
                           = Some (a_farmer_id animal))).
Proof.
  split.
  - unfold MoreAnimalsApi.create_animal. intros ->. reflexivity.
  - intros reply db'.
    assert (Hproceed : forall farmer_id,
      match data with
      | Some ((_ :: _) as d) =>
          match AnimalService.create_animal L db d farmer_id new_id c with
          | ((Some animal, _), db'') =>
              (Replies.success "Animal registered successfully"
                 (Some (AnimalEntry animal)) 201 now, db'')
          | ((None, error_msg), db'') =>
              (Replies.error (Http.text error_msg) None 400 now, db'')
          end
      | _ => (Replies.error "No data provided" None 400 now, db)
      end = (reply, db') ->
      p_status_code reply = 201 ->
      exists animal,
        p_data reply = Some (AnimalEntry animal)
        /\ animals db' = (animals db ++ [animal])%list
        /\ a_farmer_id animal = farmer_id).
    { intros farmer_id. destruct data as [[|entry d]|].
      1, 3: intros H; injection H as <- _; discriminate.
      destruct (AnimalService.create_animal L db (entry :: d) farmer_id
                  new_id c) as [[[animal|] msg] db''] eqn:Hrun.
      2: { intros H; injection H as <- _. discriminate. }
      intros H _. injection H as <- <-.
      destruct (create_animal_success _ _ _ _ _ _ _ _ _ Hrun)
        as (_ & _ & -> & _ & Hown & _).
      exists animal. split; [reflexivity|]. split; [reflexivity | exact Hown]. }
    unfold MoreAnimalsApi.create_animal.
    destruct (u_user_type current_user) eqn:Hrole.
    + intros Hrun H201.
      destruct (Hproceed _ Hrun H201) as (animal & Hd & Hrows & Hown).
      exists animal. repeat split; auto. discriminate.
    + intros H; injection H as <- _; discriminate.
    + destruct data as [d|].
      2: { intros H; injection H as <- _. discriminate. }
      destruct (Json.get_truthy d "farmer_id") as [farmer_id|] eqn:Hf.
      2: { intros H; injection H as <- _. discriminate. }
      intros Hrun H201.
      destruct (Hproceed _ Hrun H201) as (animal & Hd & Hrows & Hown).
      exists animal. repeat split; auto; [discriminate|].
      intros _. exists d. rewrite Hown. auto.
Qed.

(** Witness for X20: farmer "f2" sends a body that names "f1" as owner. *)
Lemma create_animal_endpoint_owner_witness :
  let body :=
    Some [("tag_id", JStr "COW009"); ("species", JStr "cattle");
          ("gender", JStr "female"); ("farmer_id", JStr "f1")] in
  exists animal,
    p_data (fst (MoreAnimalsApi.create_animal Sample.lib Sample.db Sample.f2
                   body "a3" 3 Committed)) = Some (AnimalEntry animal)
    /\ a_farmer_id animal = "f2".
Proof.
  cbv zeta.
  destruct (proj2 (create_animal_endpoint_owner Sample.lib Sample.db
                     Sample.f2
                     (Some [("tag_id", JStr "COW009");
                            ("species", JStr "cattle");
                            ("gender", JStr "female");
                            ("farmer_id", JStr "f1")]) "a3" 3 Committed)
              _ _ (surjective_pairing _) eq_refl)
    as (animal & Hd & _ & Hown & _).
  exists animal. split; [exact Hd | exact (Hown eq_refl)].
Defined.

(* ------------------------------------------------------------------ *)
(** ** Deleting users *)

Lemma find_replace_first_none {A K : Type} (key : A -> K) (k : K)
    (p : A -> bool) (x x' : A) (l : list A) :
  NoDup (map key l) ->
  (forall y, p y = true -> key y = k) ->
  find p l = Some x -> p x' = false ->
  find p (Store.replace_first p x' l) = None.
Proof.
  intros Hnd Hkey. induction l as [|y l IH]; cbn; intros Hf Hp;
    [discriminate|].
  cbn in Hnd. apply NoDup_cons_iff in Hnd. destruct Hnd as [Hnotin Hnd].
  destruct (p y) eqn:Hy; cbn.
  - rewrite Hp. apply find_none_all. intros z Hz.
    destruct (p z) eqn:Hpz; [|reflexivity].
    exfalso. apply Hnotin. rewrite (Hkey y Hy), <- (Hkey z Hpz).
    now apply in_map.
  - rewrite Hy. now apply IH.
Qed.

Lemma length_replace_first {A : Type} (p : A -> bool) (x' : A) (l : list A) :
  List.length (Store.replace_first p x' l) = List.length l.
Proof.
  induction l as [|y l IH]; cbn; [reflexivity|].
  destruct (p y); cbn; [reflexivity | now rewrite IH].
Qed.

(** X21. [DELETE /users/<id>] never touches another administrator: the
    answer is 403 and the store is unchanged. When it answers 200, with
    ids and email addresses unique in the table, the row is kept but the
    user is no longer found by id, so a second request is answered 404,
    and a login with the user's address and any password is answered
    "Invalid email or password". *)
Theorem delete_user_outcomes (db : DB) (current_user : User)
    (user_id : string) (now : datetime) (c : CommitOutcome) :
  (forall target,
     Store.get_user db user_id = Some target ->
     u_user_type target = ADMIN -> u_id target <> u_id current_user ->
     MoreUsersApi.delete_user db current_user user_id now c
     = (Http.error_response "Cannot delete other admin users" None 403 now,
        db))
  /\ (forall response db' target,
        MoreUsersApi.delete_user db current_user user_id now c
        = (response, db') ->
        r_status_code response = 200 ->
        Store.get_user db user_id = Some target ->
        NoDup (map u_id (users db)) ->
        NoDup (map u_email (users db)) ->
        List.length (users db') = List.length (users db)
        /\ Store.get_user db' user_id = None
        /\ (forall now' c',
              MoreUsersApi.delete_user db' current_user user_id now' c'
              = (Http.error_response "User not found" None 404 now', db'))
        /\ (forall L email password,
              email <> "" -> password <> "" ->
              PyStr.lower email = u_email target ->
              AuthUtils.authenticate_user L (users db') email password
              = (None, Some "Invalid email or password"))).
Proof.
  unfold MoreUsersApi.delete_user. split.
  - intros target -> Hadmin Hother. rewrite Hadmin. cbn.
    apply String.eqb_neq in Hother. now rewrite Hother.
  - intros response db' target Hrun H200 Hget Hids Hemails.
    rewrite Hget in Hrun.
    destruct (Enum.role_eqb (u_user_type target) ADMIN
              && negb (u_id target =? u_id current_user)).
    { injection Hrun as <- _. discriminate. }
    destruct c; cbn in Hrun.
    2: { injection Hrun as <- _. discriminate. }
    injection Hrun as _ <-.
    set (target' := UserModel.with_is_active false
                      (UserModel.with_status INACTIVE target)).
    assert (Hnone : Store.get_user (Store.put_user user_id target' db) user_id
                    = None).
    { unfold Store.get_user, Store.put_user. cbn.
      apply (find_replace_first_none u_id user_id _ target); auto.
      - intros y Hy. unfold Store.user_active_id in Hy.
        apply andb_true_iff in Hy. destruct Hy as [Hy _].
        now apply String.eqb_eq in Hy.
      - unfold Store.user_active_id. cbn. apply andb_false_r. }
    split; [cbn; apply length_replace_first|].
    split; [exact Hnone|]. split.
    + intros now' c'. now rewrite Hnone.
    + intros L email password He Hp Hlow.
      unfold AuthUtils.authenticate_user, PyStr.truthy.
      apply String.eqb_neq in He, Hp. rewrite He, Hp. cbn [negb orb].
      replace (AuthUtils.find_active_by_email
                 (users (Store.put_user user_id target' db))
                 (PyStr.lower email))
        with (@None User); [reflexivity|].
      symmetry. unfold AuthUtils.find_active_by_email, Store.put_user. cbn.
      unfold Store.get_user in Hget.
      pose proof (find_some _ _ Hget) as [Hin Hp'].
      unfold Store.user_active_id in Hp'. apply andb_true_iff in Hp'.
      destruct Hp' as [_ Hactive].
      apply find_none_all. intros z Hz.
      destruct ((u_email z =? PyStr.lower email) && u_is_active z) eqn:Hpz;
        [|reflexivity].
      exfalso. apply andb_true_iff in Hpz. destruct Hpz as [Hze Hza].
      apply String.eqb_eq in Hze. rewrite Hlow in Hze.
      clear - Hz Hze Hza Hget Hemails Hactive.
      revert Hget Hz Hemails.
      induction (users db) as [|y l IH]; cbn; [discriminate|].
      intros Hget Hz Hnd. apply NoDup_cons_iff in Hnd.
      destruct Hnd as [Hnotin Hnd].
      destruct (Store.user_active_id user_id y) eqn:Hy.
      * injection Hget as ->. cbn in Hz. destruct Hz as [<- | Hz].
        -- cbn in Hza. discriminate Hza.
        -- apply Hnotin. rewrite <- Hze. now apply in_map.
      * cbn in Hz. destruct Hz as [<- | Hz].
        -- apply find_some in Hget. destruct Hget as [Hin _].
           apply Hnotin. rewrite Hze. now apply in_map.
        -- now apply IH.
Qed.

(** Witness for X21: the administrator deletes farmer "f2", who can then
    no longer log in. *)
Lemma delete_user_outcomes_witness :
  let db' := snd (MoreUsersApi.delete_user Sample.db Sample.admin "f2" 3
                    Committed) in
  Store.get_user db' "f2" = None
  /\ AuthUtils.authenticate_user Sample.lib (users db') "F2@x.com"
       "Abcd1234!"
     = (None, Some "Invalid email or password").
Proof.
  cbv zeta.
  destruct (proj2 (delete_user_outcomes Sample.db Sample.admin "f2" 3
                     Committed)
              _ _ Sample.f2 (surjective_pairing _) eq_refl eq_refl)
    as (_ & Hnone & _ & Hlogin).
  - repeat constructor; cbn; intuition discriminate.
  - repeat constructor; cbn; intuition discriminate.
  - split; [exact Hnone|].
    apply Hlogin; [discriminate | discriminate | reflexivity].
Defined.

(* ------------------------------------------------------------------ *)
(** ** Verifying and resetting through the endpoints *)

Lemma verify_otp_accepts (user : User) (provided : string) (w : Z)
    (now : datetime) (m : string) :
  AuthUtils.verify_otp user provided w now = (true, m) ->
  exists issued,
    u_otp_code user = Some provided /\ provided <> ""
    /\ u_otp_created_at user = Some issued
    /\ now - issued < timedelta_minutes w.
Proof.
  unfold AuthUtils.verify_otp, AuthUtils.otp_absent, PyStr.truthy,
    Helpers.is_otp_valid.
  destruct (u_otp_code user) as [code|]; [|discriminate].
  destruct (u_otp_created_at user) as [t|]; [|discriminate].
  destruct (code =? "") eqn:He; cbn; [discriminate|].
  destruct (code =? provided) eqn:Hc; cbn; [|discriminate].
  destruct (now <? t + timedelta_minutes w)%Z eqn:Hlt; cbn; [|discriminate].
  intros _. apply String.eqb_eq in Hc. subst code.
  apply String.eqb_neq in He. apply Z.ltb_lt in Hlt.
  exists t. repeat split; auto. lia.
Qed.

Lemma verify_otp_without_code (user : User) (provided : string) (w : Z)
    (now : datetime) :
  u_otp_code user = None ->
  AuthUtils.verify_otp user provided w now
  = (false, "No OTP found for this user").
Proof.
  intros H. unfold AuthUtils.verify_otp, AuthUtils.otp_absent.
  now rewrite H.
Qed.

Lemma put_by_email_find (db : DB) (e : string) (user user' : User) :
  AuthUtils.find_active_by_email (users db) e = Some user ->
  u_email user' = u_email user -> u_is_active user' = u_is_active user ->
  AuthUtils.find_active_by_email
    (users (MoreAuthRoutes.put_by_email e user' db)) e = Some user'.
Proof.
  unfold AuthUtils.find_active_by_email, MoreAuthRoutes.put_by_email. cbn.
  intros Hf He Ha. apply (find_replace_first _ user); [exact Hf|].
  apply find_some in Hf. destruct Hf as [_ Hp].
  now rewrite He, Ha.
Qed.

(** X22. When [POST /verify-otp] answers 200, the stored user has no code
    left and keeps the account invariant, and the same request sent again,
    at any time, is answered 400 "No OTP found for this user" without
    changing the store: a code is used once. *)
Theorem verify_otp_endpoint_once (db db' : DB) (data : option Payload)
    (now : datetime) (c1 c2 : CommitOutcome) (response : Response) :
  MoreAuthRoutes.verify_otp_endpoint db data now c1 c2 = (response, db') ->
  r_status_code response = 200 ->
  (forall now' d1 d2,
     MoreAuthRoutes.verify_otp_endpoint db' data now' d1 d2
     = (Http.error_response "No OTP found for this user" None 400 now', db'))
  /\ exists d user user',
       data = Some d
       /\ AuthUtils.find_active_by_email (users db)
            (PyStr.strip (PyStr.lower (Json.item d "email"))) = Some user
       /\ AuthUtils.find_active_by_email (users db')
            (PyStr.strip (PyStr.lower (Json.item d "email"))) = Some user'
       /\ u_otp_code user' = None
       /\ u_otp_code user = Some (PyStr.strip (Json.item d "otp"))
       /\ (active_implies_verified user -> active_implies_verified user').
Proof.
  unfold MoreAuthRoutes.verify_otp_endpoint.
  destruct data as [[|entry d]|].
  1, 3: intros H; injection H as <- _; discriminate.
  destruct (Helpers.validate_required_fields (entry :: d) ["email"; "otp"])
    as [valid missing].
  destruct valid; cbn [negb].
  2: { intros H; injection H as <- _. discriminate. }
  set (email := PyStr.strip (PyStr.lower (Json.item (entry :: d) "email"))).
  destruct (AuthUtils.find_active_by_email (users db) email)
    as [user|] eqn:Hfind.
  2: { intros H; injection H as <- _. discriminate. }
  destruct (AuthUtils.verify_otp user
              (PyStr.strip (Json.item (entry :: d) "otp"))
              AuthUtils.DEFAULT_VALIDITY_MINUTES now) as [[|] m] eqn:Hv.
  2: { intros H; injection H as <- _. discriminate. }
  set (ty := match Json.get (entry :: d) "type" with
             | Some v => Json.str v
             | None => "both"
             end).
  destruct c2; cbn [Verification.clear_otp].
  2: { intros H; injection H as <- _. discriminate. }
  intros H _. injection H as _ <-.
  set (user1 := snd (AuthUtils.verify_user_account user ty c1)).
  assert (H1 : u_email user1 = u_email user
               /\ u_is_active user1 = u_is_active user).
  { unfold user1, AuthUtils.verify_user_account.
    destruct c1; cbn [snd]; [|split; reflexivity].
    destruct (PyStr.mem ty ["email"; "both"]),
             (PyStr.mem ty ["phone"; "both"]);
      destruct user as [i n e ph pw ro st ev pv oc ot ia da]; cbn;
      destruct ev, pv; cbn; split; reflexivity. }
  destruct H1 as [He Ha].
  assert (Hfind' :
    AuthUtils.find_active_by_email
      (users (MoreAuthRoutes.put_by_email email
                (UserModel.with_otp None None user1) db)) email
    = Some (UserModel.with_otp None None user1)).
  { apply (put_by_email_find db email user); auto. }
  split.
  - intros now' d1 d2. fold email. rewrite Hfind'.
    now rewrite verify_otp_without_code.
  - exists (entry :: d), user, (UserModel.with_otp None None user1).
    split; [reflexivity|]. split; [exact Hfind|]. split; [exact Hfind'|].
    split; [reflexivity|].
    destruct (verify_otp_accepts _ _ _ _ _ Hv) as (t & Hcode & _).
    split; [exact Hcode|].
    intros Hinv.
    pose proof (verify_user_account_keeps_invariant user ty c1 Hinv) as H.
    exact H.
Qed.

(** Witness for X22. *)
Lemma verify_otp_endpoint_once_witness :
  MoreAuthRoutes.verify_otp_endpoint
    (snd (MoreAuthRoutes.verify_otp_endpoint
            (MoreSample.db_with_code MoreSample.pending_farmer)
            MoreSample.verify_body 5 Committed Committed))
    MoreSample.verify_body 6 Committed Committed
  = (Http.error_response "No OTP found for this user" None 400 6,
     snd (MoreAuthRoutes.verify_otp_endpoint
            (MoreSample.db_with_code MoreSample.pending_farmer)
            MoreSample.verify_body 5 Committed Committed)).
Proof.
  exact (proj1 (verify_otp_endpoint_once
                  (MoreSample.db_with_code MoreSample.pending_farmer)
                  (snd (MoreAuthRoutes.verify_otp_endpoint
                          (MoreSample.db_with_code MoreSample.pending_farmer)
                          MoreSample.verify_body 5 Committed Committed))
                  MoreSample.verify_body 5 Committed Committed
                  (fst (MoreAuthRoutes.verify_otp_endpoint
                          (MoreSample.db_with_code MoreSample.pending_farmer)
                          MoreSample.verify_body 5 Committed Committed))
                  eq_refl eq_refl) 6 Committed Committed).
Defined.



(* ------------------------------------------------------------------ *)
(** ** Endpoints for administrators *)

(** X24. The status update and the user deletion change the store only for
    a caller who is stored, active, able to log in and an administrator;
    for any other bearer identity both answer 401 or 403 and leave the
    store unchanged. *)
Theorem admin_endpoints_need_admin (db : DB) (identity user_id : string)
    (data : option Payload) (now : datetime) (c : CommitOutcome) :
  (forall caller,
     Store.get_user db identity = Some caller ->
     UserModel.can_login caller = true ->
     u_user_type caller <> ADMIN) ->
  (snd (UsersApi.update_user_status_endpoint db identity user_id data now c)
   = db
   /\ (r_status_code
         (fst (UsersApi.update_user_status_endpoint db identity user_id data
                 now c)) = 401
       \/ r_status_code
            (fst (UsersApi.update_user_status_endpoint db identity user_id
                    data now c)) = 403))
  /\ (snd (MoreUsersApi.delete_user_endpoint db identity user_id now c) = db
      /\ (r_status_code
            (fst (MoreUsersApi.delete_user_endpoint db identity user_id now
                    c)) = 401
          \/ r_status_code
               (fst (MoreUsersApi.delete_user_endpoint db identity user_id
                       now c)) = 403)).
Proof.
  intros Hno.
  unfold UsersApi.update_user_status_endpoint,
    MoreUsersApi.delete_user_endpoint, Decorators.admin_required,
    Decorators.auth_required.
  destruct (Store.get_user db identity) as [caller|] eqn:Hget.
  - destruct (UserModel.can_login caller) eqn:Hlogin; cbn [negb].
    + specialize (Hno caller eq_refl Hlogin).
      destruct (Enum.role_eqb (u_user_type caller) ADMIN) eqn:Hr.
      * apply role_eqb_eq in Hr. contradiction.
      * cbn. auto.
    + cbn. auto.
  - cbn. auto.
Qed.

(** Witness for X24: the farmer "f1" tries both. *)
Lemma admin_endpoints_need_admin_witness :
  snd (UsersApi.update_user_status_endpoint Sample.db "f1" "f2"
         (Some [("status", JStr "suspended")]) 3 Committed) = Sample.db
  /\ snd (MoreUsersApi.delete_user_endpoint Sample.db "f1" "f2" 3 Committed)
     = Sample.db.
Proof.
  assert (H : forall caller,
             Store.get_user Sample.db "f1" = Some caller ->
             UserModel.can_login caller = true ->
             u_user_type caller <> ADMIN).
  { intros caller Hc _. cbn in Hc. injection Hc as <-. discriminate. }
  pose proof (admin_endpoints_need_admin Sample.db "f1" "f2"
                (Some [("status", JStr "suspended")]) 3 Committed H)
    as [[Ha _] [Hb _]].
  split; [exact Ha | exact Hb].
Defined.

(* ------------------------------------------------------------------ *)
(** ** Assignment, reading and soft deletion together *)

Lemma find_replace_first_other {A : Type} (p q : A -> bool) (x x' : A)
    (l : list A) :
  find q l = Some x -> p x = false -> p x' = false ->
  find p (Store.replace_first q x' l) = find p l.
Proof.
  induction l as [|y l IH]; cbn; intros Hf Hx Hx'; [reflexivity|].
  destruct (q y) eqn:Hq; cbn.
  - injection Hf as ->. now rewrite Hx, Hx'.
  - destruct (p y); [reflexivity | now apply IH].
Qed.



(** X26. A successful [deactivate_animal] deletes softly: the table keeps
    its number of rows, the animal returned is the stored one with
    [is_active] false and [deleted_at] set to the time of the call and
    nothing else changed, users and health records are untouched, and
    animals with other ids are found as before. With ids unique in the
    table, the animal itself is no longer found, so that the read handler
    answers 404 to every caller. *)
Theorem deactivate_animal_soft (db db' : DB) (animal_id : string)
    (reason by_user : option string) (now : datetime) (c : CommitOutcome)
    (animal' : Animal) (msg : option string) :
  AnimalService.deactivate_animal db animal_id reason by_user now c
  = ((Some animal', msg), db') ->
  (exists animal,
     Store.get_animal db animal_id = Some animal
     /\ animal' = AnimalModel.soft_deleted now animal)
  /\ a_is_active animal' = false /\ a_deleted_at animal' = Some now
  /\ List.length (animals db') = List.length (animals db)
  /\ users db' = users db /\ health_records db' = health_records db
  /\ (forall other, other <> animal_id ->
        Store.get_animal db' other = Store.get_animal db other)
  /\ (NoDup (map a_id (animals db)) ->
      Store.get_animal db' animal_id = None
      /\ forall reader now',
           AnimalsApi.get_animal db' reader animal_id now'
           = Http.error_response "Animal not found" None 404 now').
Proof.
  unfold AnimalService.deactivate_animal.
  destruct (Store.get_animal db animal_id) as [animal|] eqn:Hget;
    [|discriminate].
  destruct c; [|discriminate].
  intros H. injection H as <- _ <-.
  split; [exists animal; auto|].
  split; [reflexivity|]. split; [reflexivity|].
  split; [cbn; apply length_replace_first|].
  split; [reflexivity|]. split; [reflexivity|].
  pose proof (find_some _ _ Hget) as [_ Hp].
  unfold Store.animal_active_id in Hp. apply andb_true_iff in Hp.
  destruct Hp as [Hid _]. apply String.eqb_eq in Hid.
  split.
  - intros other Hother. unfold Store.get_animal, Store.put_animal. cbn.
    apply (find_replace_first_other _ _ animal); [exact Hget | |];
      unfold Store.animal_active_id; cbn; rewrite Hid;
      assert (Hne : (animal_id =? other) = false)
        by (apply String.eqb_neq; congruence);
      now rewrite Hne.
  - intros Hnd.
    assert (Hnone :
      Store.get_animal
        (Store.put_animal animal_id (AnimalModel.soft_deleted now animal) db)
        animal_id = None).
    { unfold Store.get_animal, Store.put_animal. cbn.
      apply (find_replace_first_none a_id animal_id _ animal); auto.
      - intros y Hy. unfold Store.animal_active_id in Hy.
        apply andb_true_iff in Hy. destruct Hy as [Hy _].
        now apply String.eqb_eq in Hy.
      - unfold Store.animal_active_id. cbn. apply andb_false_r. }
    split; [exact Hnone|].
    intros reader now'. unfold AnimalsApi.get_animal. now rewrite Hnone.
Qed.

(** Witness for X26. *)
Lemma deactivate_animal_soft_witness :
  let db' := snd (AnimalService.deactivate_animal Sample.db "a1" None None 9
                    Committed) in
  List.length (animals db') = List.length (animals Sample.db)
  /\ Store.get_animal db' "a1" = None.
Proof.
  cbv zeta.
  pose proof (deactivate_animal_soft Sample.db _ "a1" None None 9 Committed
                _ _ eq_refl) as (_ & _ & _ & Hlen & _ & _ & _ & Hgone).
  split; [exact Hlen|]. apply Hgone.
  repeat constructor; cbn; intuition discriminate.
Defined.

(* ------------------------------------------------------------------ *)
(** ** Required fields *)

Section BlankFacts.

Import PyText.






End BlankFacts.



(* ------------------------------------------------------------------ *)
(** ** The farmer's summary *)

Section CounterFacts.

Import Summaries.

Local Abbreviation sum d := (fold_right Z.add 0 (map snd d)) (only parsing).

Lemma sum_bump (k : string) (d : list (string * Z)) :
  sum (bump k d) = sum d + 1.
Proof.
  induction d as [|[k' n] rest IH]; cbn; [reflexivity|].
  destruct (k' =? k); cbn; lia.
Qed.

Lemma count_bump (k k' : string) (d : list (string * Z)) :
  count (bump k d) k' = if k =? k' then count d k' + 1 else count d k'.
Proof.
  induction d as [|[k0 n] rest IH]; cbn.
  - destruct (k =? k'); reflexivity.
  - destruct (k0 =? k) eqn:H0; cbn.
    + apply String.eqb_eq in H0. subst k0.
      destruct (k =? k'); reflexivity.
    + destruct (k0 =? k') eqn:H1; [|exact IH].
      apply String.eqb_eq in H1. subst k0. now rewrite String.eqb_sym, H0.
Qed.

Context {A : Type}.
Variable key : A -> string.

Lemma sum_fold_bump (l : list A) (d : list (string * Z)) :
  sum (fold_left (fun d a => bump (key a) d) l d)
  = sum d + Z.of_nat (List.length l).
Proof.
  revert d. induction l as [|a l IH]; intros d; cbn [fold_left List.length].
  - lia.
  - rewrite IH, sum_bump. lia.
Qed.

Lemma count_fold_bump (l : list A) (d : list (string * Z)) (k : string) :
  count (fold_left (fun d a => bump (key a) d) l d) k
  = count d k + Z.of_nat (List.length (filter (fun a => key a =? k) l)).
Proof.
  revert d. induction l as [|a l IH]; intros d;
    cbn [fold_left List.length filter].
  - lia.
  - rewrite IH, count_bump. destruct (key a =? k); cbn [List.length]; lia.
Qed.

End CounterFacts.

Lemma sum_fold_production (l : list Animal) (d : list (string * Z)) :
  fold_right Z.add 0
    (map snd
       (fold_left
          (fun d a =>
             match a_production_status a with
             | Some p => Summaries.bump (EnumValue.production_value p) d
             | None => d
             end) l d))
  <= fold_right Z.add 0 (map snd d) + Z.of_nat (List.length l).
Proof.
  revert d. induction l as [|a l IH]; intros d;
    cbn [fold_left List.length].
  - lia.
  - specialize (IH (match a_production_status a with
                    | Some p => Summaries.bump (EnumValue.production_value p) d
                    | None => d
                    end)).
    destruct (a_production_status a);
      [rewrite sum_bump in IH|]; lia.
Qed.

Lemma attention_split (l : list Animal) :
  Z.of_nat (List.length
              (filter (fun a => EnumValue.health_value (a_health_status a)
                                =? "sick") l))
  + Z.of_nat (List.length
                (filter (fun a => EnumValue.health_value (a_health_status a)
                                  =? "under_treatment") l))
  + Z.of_nat (List.length
                (filter (fun a => EnumValue.health_value (a_health_status a)
                                  =? "quarantine") l))
  = Z.of_nat (List.length (filter EnumValue.needs_attention l))
  /\ Z.of_nat (List.length
                 (filter (fun a => EnumValue.health_value (a_health_status a)
                                   =? "healthy") l))
     + Z.of_nat (List.length (filter EnumValue.needs_attention l))
     <= Z.of_nat (List.length l)
  /\ List.length
       (filter (fun a => EnumValue.health_value (a_health_status a)
                         =? "healthy") l)
     = List.length
         (filter (fun a => match a_health_status a with
                           | HEALTHY => true
                           | _ => false
                           end) l).
Proof.
  induction l as [|a l (IH1 & IH2 & IH3)]; [cbn; repeat split; lia|].
  assert (HN : forall p : Animal -> bool,
             List.length (filter p (a :: l))
             = ((if p a then 1 else 0) + List.length (filter p l))%nat).
  { intros p. cbn [filter]. destruct (p a); reflexivity. }
  rewrite !HN. clear HN. cbn [List.length].
  repeat match goal with
         | |- context [List.length (filter ?p l)] =>
             let n := fresh "n" in
             set (n := List.length (filter p l)) in *; clearbody n
         end.
  unfold EnumValue.needs_attention.
  destruct (a_health_status a); cbn -[Z.of_nat Z.add Z.le];
    repeat split; lia.
Qed.

(** X28. In the summary of a farmer, [total_animals] is the number of the
    farmer's active animals; the species counts and the health counts each
    add up to it, and the production counts add up to at most it. Each
    species count is the number of those animals of that species,
    [healthy_animals] is the number that are Healthy,
    [animals_needing_attention] the number that are Sick, Under treatment
    or in Quarantine, and the two together never exceed the total. *)
Theorem farmer_summary_counts (db : DB) (farmer_id : string)
    (summary : Summary) (msg : option string) :
  Summaries.get_farmer_animals_summary db farmer_id = (Some summary, msg) ->
  let rows := Summaries.farmer_animals db farmer_id in
  total_animals summary = Z.of_nat (List.length rows)
  /\ (forall a, In a rows <->
                In a (animals db) /\ a_farmer_id a = farmer_id
                /\ a_is_active a = true)
  /\ fold_right Z.add 0 (map snd (species_breakdown summary))
     = total_animals summary
  /\ fold_right Z.add 0 (map snd (health_status_breakdown summary))
     = total_animals summary
  /\ fold_right Z.add 0 (map snd (production_status_breakdown summary))
     <= total_animals summary
  /\ (forall sp,
        Summaries.count (species_breakdown summary)
          (EnumValue.species_value sp)
        = Z.of_nat (List.length
                      (filter (fun a => EnumValue.species_eqb (a_species a) sp)
                         rows)))
  /\ healthy_animals summary
     = Z.of_nat (List.length
                   (filter (fun a => match a_health_status a with
                                     | HEALTHY => true
                                     | _ => false
                                     end) rows))
  /\ animals_needing_attention summary
     = Z.of_nat (List.length (filter EnumValue.needs_attention rows))
  /\ healthy_animals summary + animals_needing_attention summary
     <= total_animals summary.
Proof.
  unfold Summaries.get_farmer_animals_summary.
  destruct (Store.get_farmer db farmer_id) as [farmer|]; [|discriminate].
  intros H. injection H as <- _. cbv zeta. cbn [total_animals
    species_breakdown health_status_breakdown production_status_breakdown
    healthy_animals animals_needing_attention].
  set (rows := Summaries.farmer_animals db farmer_id).
  destruct (attention_split rows) as (Hatt & Hle & Hhealthy).
  split; [reflexivity|]. split.
  { intros a. unfold rows, Summaries.farmer_animals.
    rewrite filter_In, andb_true_iff, String.eqb_eq. tauto. }
  split; [rewrite sum_fold_bump; cbn; lia|].
  split; [rewrite sum_fold_bump; cbn; lia|].
  split; [pose proof (sum_fold_production rows []) as Hp; cbn in Hp; cbn; lia|].
  split; [intros sp; rewrite count_fold_bump; cbn [Summaries.count];
          unfold EnumValue.species_eqb; lia|].
  rewrite !count_fold_bump. cbn [Summaries.count].
  split; [rewrite <- Hhealthy; lia|]. split; lia.
Qed.

(** Witness for X28: the summary of farmer "f1", who owns one active and
    one deactivated animal. *)
Lemma farmer_summary_counts_witness :
  exists summary,
    fst (Summaries.get_farmer_animals_summary Sample.db "f1") = Some summary
    /\ total_animals summary = 1
    /\ fold_right Z.add 0 (map snd (species_breakdown summary)) = 1.
Proof.
  eexists. split; [reflexivity|].
  pose proof (farmer_summary_counts Sample.db "f1" _ None eq_refl)
    as (Htotal & _ & Hsum & _).
  split; [exact Htotal | exact Hsum].
Defined.

(* ------------------------------------------------------------------ *)
(** ** Listing animals *)

Lemma paginate_query_items_incl {A : Type} (q : list A)
    (page per_page max_per_page : Z) (pg : Pagination A) :
  Paging.paginate_query q page per_page max_per_page = Some pg ->
  (forall x, In x (pg_items pg) -> In x q)
  /\ pg_total pg = Z.of_nat (List.length q).
Proof.
  unfold Paging.paginate_query, Paging.limit, Paging.offset.
  match goal with |- context [if ?b then None else _] => destruct b end;
    [discriminate|].
  intros H. injection H as <-. cbn. split; [|reflexivity].
  intros x Hx.
  match type of Hx with
  | In x (firstn ?n (skipn ?m q)) =>
      rewrite <- (firstn_skipn m q); apply in_or_app; right;
      rewrite <- (firstn_skipn n (skipn m q)); apply in_or_app; now left
  end.
Qed.

Lemma species_eqb_eq (a b : AnimalSpecies) :
  EnumValue.species_eqb a b = true <-> a = b.
Proof. destruct a, b; cbn; split; congruence. Qed.

Lemma health_eqb_eq (a b : HealthStatus) :
  EnumValue.health_eqb a b = true <-> a = b.
Proof. destruct a, b; cbn; split; congruence. Qed.

Section ListingFacts.

Variable ilike : string -> string -> bool.
Variable order_by_created_desc : list Animal -> list Animal.

(** Ordering a query returns rows of the query. *)
Hypothesis order_rows :
  forall q a, In a (order_by_created_desc q) -> In a q.

(** X29. Every animal on a page that [GET /animals] returns is a stored,
    active animal within the caller's scope: owned by the caller when the
    caller is a farmer, assigned to the caller when the caller is a
    veterinarian, owned by the requested farmer when an administrator gave
    a [farmer_id]. It also has the species and the health status asked
    for, when these were given. An unknown species is answered 400
    "Invalid species". *)
Theorem list_animals_scoped (db : DB) (current_user : User)
    (page per_page : Z) (species health_status search farmer_id : option string)
    (now : datetime) (reply : Reply (Pagination Animal)) :
  Listing.list_animals ilike order_by_created_desc db current_user page
    per_page species health_status search farmer_id now = Some reply ->
  (p_status_code reply = 200 ->
   exists pg,
     p_data reply = Some pg
     /\ forall a, In a (pg_items pg) ->
          In a (animals db) /\ a_is_active a = true
          /\ (u_user_type current_user = FARMER ->
              a_farmer_id a = u_id current_user)
          /\ (u_user_type current_user = VETERINARIAN ->
              a_veterinarian_id a = Some (u_id current_user))
          /\ (forall f, u_user_type current_user = ADMIN ->
                Listing.given farmer_id = Some f -> a_farmer_id a = f)
          /\ (forall s, Listing.given species = Some s ->
                Enum.species_of_value (PyStr.lower s) = Some (a_species a))
          /\ (forall s, Listing.given health_status = Some s ->
                Enum.health_of_value (PyStr.lower s)
                = Some (a_health_status a)))
  /\ (forall s, Listing.given species = Some s ->
        Enum.species_of_value (PyStr.lower s) = None ->
        reply = Replies.error "Invalid species" None 400 now).
Proof.
  unfold Listing.list_animals. cbv zeta.
  set (scope := match u_user_type current_user with
                | FARMER => _ | VETERINARIAN => _ | ADMIN => _ end).
  assert (Hscope : forall a, In a scope ->
    In a (animals db) /\ a_is_active a = true
    /\ (u_user_type current_user = FARMER ->
        a_farmer_id a = u_id current_user)
    /\ (u_user_type current_user = VETERINARIAN ->
        a_veterinarian_id a = Some (u_id current_user))
    /\ (forall f, u_user_type current_user = ADMIN ->
          Listing.given farmer_id = Some f -> a_farmer_id a = f)).
  { intros a. unfold scope.
    destruct (u_user_type current_user).
    - rewrite filter_In, andb_true_iff, String.eqb_eq.
      intros (Hin & Hown & Hact). repeat split; auto; discriminate.
    - rewrite filter_In, andb_true_iff.
      intros (Hin & Hvet & Hact). repeat split; auto; try discriminate.
      intros _. destruct (a_veterinarian_id a) as [v|]; [|discriminate].
      apply String.eqb_eq in Hvet. now subst v.
    - destruct (Listing.given farmer_id) as [f|].
      + rewrite !filter_In, String.eqb_eq.
        intros ((Hin & Hact) & Hown). repeat split; auto; try discriminate.
        intros f' _ Hf. now injection Hf as <-.
      + rewrite filter_In. intros (Hin & Hact).
        repeat split; auto; discriminate. }
  clearbody scope.
  destruct (Listing.given species) as [s|].
  - destruct (Enum.species_of_value (PyStr.lower s)) as [sp|] eqn:Hsp.
    2: { intros H. injection H as <-. split; [discriminate|].
         intros s' Hs' _. reflexivity. }
    destruct (Listing.given health_status) as [h|].
    + destruct (Enum.health_of_value (PyStr.lower h)) as [hs|] eqn:Hhs.
      2: { intros H. injection H as <-. split; [discriminate|].
           intros s' Hs' Hnone. injection Hs' as <-. congruence. }
      match goal with
      | |- context [Paging.paginate_query ?q _ _ _] =>
          destruct (Paging.paginate_query q page per_page
                      Paging.DEFAULT_MAX_PER_PAGE) as [pg|] eqn:Hpg
      end; [|discriminate].
      intros H. injection H as <-.
      split; [|intros s' Hs' Hnone; injection Hs' as <-; congruence].
      intros _. exists pg. split; [reflexivity|]. intros a Ha.
      apply (proj1 (paginate_query_items_incl _ _ _ _ _ Hpg)) in Ha.
      apply order_rows in Ha.
      assert (Hin : In a (filter (fun a => EnumValue.health_eqb
                                    (a_health_status a) hs)
                            (filter (fun a => EnumValue.species_eqb
                                       (a_species a) sp) scope))).
      { destruct (Listing.given search);
          [apply filter_In in Ha; tauto | exact Ha]. }
      rewrite !filter_In, species_eqb_eq, health_eqb_eq in Hin.
      destruct Hin as ((Hin & Hs) & Hh).
      destruct (Hscope a Hin) as (H1 & H2 & H3 & H4 & H5).
      repeat split; auto.
      * intros s' Hs'. injection Hs' as <-. congruence.
      * intros s' Hs'. injection Hs' as <-. congruence.
    + match goal with
      | |- context [Paging.paginate_query ?q _ _ _] =>
          destruct (Paging.paginate_query q page per_page
                      Paging.DEFAULT_MAX_PER_PAGE) as [pg|] eqn:Hpg
      end; [|discriminate].
      intros H. injection H as <-.
      split; [|intros s' Hs' Hnone; injection Hs' as <-; congruence].
      intros _. exists pg. split; [reflexivity|]. intros a Ha.
      apply (proj1 (paginate_query_items_incl _ _ _ _ _ Hpg)) in Ha.
      apply order_rows in Ha.
      assert (Hin : In a (filter (fun a => EnumValue.species_eqb
                                    (a_species a) sp) scope)).
      { destruct (Listing.given search);
          [apply filter_In in Ha; tauto | exact Ha]. }
      rewrite !filter_In, species_eqb_eq in Hin.
      destruct Hin as (Hin & Hs).
      destruct (Hscope a Hin) as (H1 & H2 & H3 & H4 & H5).
      repeat split; auto.
      * intros s' Hs'. injection Hs' as <-. congruence.
      * intros s' Hs'. discriminate Hs'.
  - destruct (Listing.given health_status) as [h|].
    + destruct (Enum.health_of_value (PyStr.lower h)) as [hs|] eqn:Hhs.
      2: { intros H. injection H as <-. split; [discriminate|].
           intros s' Hs'. discriminate Hs'. }
      match goal with
      | |- context [Paging.paginate_query ?q _ _ _] =>
          destruct (Paging.paginate_query q page per_page
                      Paging.DEFAULT_MAX_PER_PAGE) as [pg|] eqn:Hpg
      end; [|discriminate].
      intros H. injection H as <-.
      split; [|intros s' Hs'; discriminate Hs'].
      intros _. exists pg. split; [reflexivity|]. intros a Ha.
      apply (proj1 (paginate_query_items_incl _ _ _ _ _ Hpg)) in Ha.
      apply order_rows in Ha.
      assert (Hin : In a (filter (fun a => EnumValue.health_eqb
                                    (a_health_status a) hs) scope)).
      { destruct (Listing.given search);
          [apply filter_In in Ha; tauto | exact Ha]. }
      rewrite !filter_In, health_eqb_eq in Hin.
      destruct Hin as (Hin & Hh).
      destruct (Hscope a Hin) as (H1 & H2 & H3 & H4 & H5).
      repeat split; auto.
      * intros s' Hs'. discriminate Hs'.
      * intros s' Hs'. injection Hs' as <-. congruence.
    + match goal with
      | |- context [Paging.paginate_query ?q _ _ _] =>
          destruct (Paging.paginate_query q page per_page
                      Paging.DEFAULT_MAX_PER_PAGE) as [pg|] eqn:Hpg
      end; [|discriminate].
      intros H. injection H as <-.
      split; [|intros s' Hs'; discriminate Hs'].
      intros _. exists pg. split; [reflexivity|]. intros a Ha.
      apply (proj1 (paginate_query_items_incl _ _ _ _ _ Hpg)) in Ha.
      apply order_rows in Ha.
      assert (Hin : In a scope).
      { destruct (Listing.given search);
          [apply filter_In in Ha; tauto | exact Ha]. }
      destruct (Hscope a Hin) as (H1 & H2 & H3 & H4 & H5).
      repeat split; auto; intros s' Hs'; discriminate Hs'.
Qed.

End ListingFacts.

(** Witness for X29: farmer "f1" lists cattle; rows come back in table
    order and every text matches the search. *)
Lemma list_animals_scoped_witness :
  exists pg,
    p_data (match Listing.list_animals (fun _ _ => true) (fun q => q)
                    Sample.db Sample.f1 1 20 (Some "Cattle") None None None
                    3 with
            | Some reply => reply
            | None => Replies.error "" None 0 3
            end) = Some pg
    /\ forall a, In a (pg_items pg) ->
         In a (animals Sample.db) /\ a_is_active a = true
         /\ (u_user_type Sample.f1 = FARMER -> a_farmer_id a = u_id Sample.f1).
Proof.
  destruct (proj1 (list_animals_scoped (fun _ _ => true) (fun q => q)
                     (fun q a H => H)
                     Sample.db Sample.f1 1 20 (Some "Cattle") None None None
                     3 _ eq_refl) eq_refl)
    as (pg & Hd & Hall).
  exists pg. split; [exact Hd|].
  intros a Ha. destruct (Hall a Ha) as (H1 & H2 & H3 & _). auto.
Defined.

(* ------------------------------------------------------------------ *)
(** ** Deactivating and reactivating a user *)

(** X30. Reactivation does not remember the status a user had before
    deactivation: after [deactivate_user] and [reactivate_user] the status
    is Active for a fully verified user and Pending otherwise, whatever it
    was. So an active user gets back exactly the user deactivated when the
    status was Active and both channels verified, or Pending and not both
    verified; a suspended, verified user comes back Active. *)
Theorem deactivate_reactivate_round_trip (user : User)
    (reason : option string) :
  u_is_active user = true ->
  let back :=
    snd (UserService.reactivate_user
           (snd (UserService.deactivate_user user reason Committed))
           Committed) in
  u_status back
  = (if UserModel.is_verified user then ACTIVE else PENDING)
  /\ (back = user <->
      (u_status user = ACTIVE /\ UserModel.is_verified user = true)
      \/ (u_status user = PENDING /\ UserModel.is_verified user = false))
  /\ (u_status user = SUSPENDED -> UserModel.is_verified user = true ->
      UserModel.can_login back = true).
Proof.
  intros Hact. cbv zeta.
  unfold UserService.reactivate_user, UserService.deactivate_user,
    UserModel.is_verified, UserModel.can_login.
  destruct user as [i n e ph pw ro st ev pv oc ot ia da]; cbn in *.
  subst ia.
  destruct ev, pv, st; cbn; repeat split; intros;
    try reflexivity; try discriminate; try tauto;
    try (left; split; reflexivity); try (right; split; reflexivity);
    try match goal with
        | H : _ \/ _ |- _ => destruct H as [[? ?] | [? ?]]; discriminate
        end.
Qed.

(** Witness for X30: the suspended veterinarian "v2". *)
Lemma deactivate_reactivate_round_trip_witness :
  u_status
    (snd (UserService.reactivate_user
            (snd (UserService.deactivate_user Sample.v2 None Committed))
            Committed)) = ACTIVE.
Proof.
  apply (deactivate_reactivate_round_trip Sample.v2 None). reflexivity.
Defined.
